(** * Portal de Planejamento Academico: the academic rules engine

    A shallow embedding of [backend/app/business_logic.py],
    [backend/app/database.py] and the enrolment route of
    [backend/app/api/enrollments.py], with the properties the
    specification states about them.

    Numbers.  Grades and averages are Python [float]s in the source.  They
    are modelled by exact rationals ([Q]): every comparison and arithmetic
    operation is the exact one, and [round(x, 2)] is the rounding to the
    nearest hundredth, ties to the even hundredth, which is what Python
    computes on the exact value of its argument.  The rounding error of the
    binary floating-point operations themselves is not modelled.  Results
    are compared with Leibniz equality after rounding ([round2] sends [Qeq]
    arguments to the same value).  Hours and minutes are Python [int]s,
    modelled by [Z].

    Exceptions.  Every failure of the calculators is a [ValueError] in the
    source; the model returns [inl e] where [e] tells the raise sites apart. *)

From Stdlib Require Import ZArith QArith Qround Qminmax Qabs Lqa Lia Bool.
From Stdlib Require Import String Ascii List Permutation.
From stdpp Require Import gmap strings list fin_maps.
Import ListNotations.

(** ** Exceptions *)

(** The three [ValueError] raise sites of [business_logic.py]:
    - [OutOfRangeError]: "Nota/Media ... fora do intervalo 0-10";
    - [InvalidConfigurationError]: "Total de horas deve ser maior que 0";
    - [MalformedTimeError]: "Formato de horario invalido: ... Use HH:MM". *)
Inductive error : Type :=
  | OutOfRangeError
  | InvalidConfigurationError
  | MalformedTimeError.

(** A computation that either raises or returns. *)
Definition result (A : Type) : Type := (error + A)%type.

Definition raise {A : Type} (e : error) : result A := inl e.
Definition ret {A : Type} (a : A) : result A := inr a.

Definition bind {A B : Type} (m : result A) (k : A -> result B) : result B :=
  match m with
  | inl e => inl e
  | inr a => k a
  end.

Notation "'do' x <- m ; k" := (bind m (fun x => k))
  (at level 10, x name, m at level 100, k at level 200).

(** ** Python's [round(x, 2)] *)

Module Rounding.

(** The integer nearest to [q], ties to even. *)
Definition round_half_even (q : Q) : Z :=
  let n := Qfloor q in
  match (q - inject_Z n ?= 1 # 2)%Q with
  | Lt => n
  | Gt => (n + 1)%Z
  | Eq => if Z.even n then n else (n + 1)%Z
  end.

(** [round(q, 2)]: the nearest multiple of 1/100. *)
Definition round2 (q : Q) : Q := round_half_even (q * 100) # 100.

End Rounding.
Import Rounding.

(** ** Grade calculator: [class AcademicCalculations] *)

Module AcademicCalculations.

(** [0 <= note <= 10] *)
Definition in_range (note : Q) : bool := Qle_bool 0 note && Qle_bool note 10.

(** [x < y] on grades. *)
Definition Qlt_bool (x y : Q) : bool := negb (Qle_bool y x).

(** [notes.sort(reverse=True)]: a stable sort into descending order.  An
    element moves past another one only when that one is strictly greater,
    so equal elements keep their order, as in Python. *)
Fixpoint insert_desc (x : Q) (l : list Q) : list Q :=
  match l with
  | [] => [x]
  | y :: l' => if Qlt_bool x y then y :: insert_desc x l' else x :: l
  end.

Definition sort_desc (l : list Q) : list Q := fold_right insert_desc [] l.

(** [calculate_ufrpe_average(n1, n2, n3)] *)
Definition calculate_ufrpe_average (n1 n2 n3 : Q) : result Q :=
  let notes := [n1; n2; n3] in
  if negb (forallb in_range notes) then raise OutOfRangeError
  else
    let notes := sort_desc notes in
    let average := ((nth 0 notes 0 + nth 1 notes 0) / 2)%Q in
    ret (round2 average).

(** [calculate_final_exam_grade(average)]; [None] is Python's [None]. *)
Definition calculate_final_exam_grade (average : Q) : result (option Q) :=
  if negb (in_range average) then raise OutOfRangeError
  else if Qle_bool 7 average || Qlt_bool average 3 then ret None
  else
    let final_grade_needed := (10 - average)%Q in
    ret (Some (round2 final_grade_needed)).

(** [calculate_course_progress(completed_hours, total_hours)] *)
Definition calculate_course_progress (completed_hours total_hours : Z)
  : result Q :=
  if (total_hours <=? 0)%Z then raise InvalidConfigurationError
  else
    let completed_hours :=
      if (completed_hours <? 0)%Z then 0%Z else completed_hours in
    let completed_hours :=
      if (completed_hours >? total_hours)%Z then total_hours
      else completed_hours in
    let percentage :=
      (inject_Z completed_hours / inject_Z total_hours * 100)%Q in
    ret (round2 percentage).

(** *** What the specification says, in its own words *)



(** [completedHours] clamped into [[0, totalHours]]. *)
Definition clamp_hours (completed total : Z) : Z :=
  Z.max 0 (Z.min completed total).

End AcademicCalculations.

(** ** Schedule conflict detector: [class ScheduleValidation] *)

(** A time block, [models.ScheduleItem]; the store keeps it as a dict with
    the keys [day], [start], [end] and [location]. *)
Record ScheduleItem : Type := mkScheduleItem {
  day : Z;
  start : string;
  end_ : string;
  location : string
}.

(** The detail dict that [has_schedule_conflict] returns with a conflict. *)
Record ConflictInfo : Type := mkConflictInfo {
  conflict_day : Z;
  time1 : string;
  time2 : string
}.

(** [time_str.split(':')]: the pieces between the colons, at least one. *)
Fixpoint split_colon (s : string) : list string :=
  match s with
  | EmptyString => [EmptyString]
  | String c s' =>
      if Ascii.eqb c ":" then EmptyString :: split_colon s'
      else match split_colon s' with
           | piece :: pieces => String c piece :: pieces
           | [] => [String c EmptyString]
           end
  end.

(** Whether a string holds a colon. *)
Fixpoint has_colon (s : string) : bool :=
  match s with
  | EmptyString => false
  | String c s' => Ascii.eqb c ":" || has_colon s'
  end.

Module ScheduleValidation.

Section WithInt.

(** Python's built-in [int] on a string: [Some n] when it parses to [n],
    [None] when it raises [ValueError]. *)
Variable py_int : string -> option Z.

(** [time_to_minutes(time_str)].  The unpacking [hours, minutes = map(int, ...)]
    raises unless there are exactly two pieces and [int] accepts both; the
    range check raises inside the [try]; the handler turns each of them into
    the one [ValueError] of the function. *)
Definition time_to_minutes (time_str : string) : result Z :=
  match List.map py_int (split_colon time_str) with
  | [Some hours; Some minutes] =>
      if negb ((0 <=? hours)%Z && (hours <? 24)%Z
               && ((0 <=? minutes)%Z && (minutes <? 60)%Z))
      then raise MalformedTimeError
      else ret (hours * 60 + minutes)%Z
  | _ => raise MalformedTimeError
  end.

(** [check_time_overlap(start1, end1, start2, end2)] *)
Definition check_time_overlap (start1 end1 start2 end2 : string)
  : result bool :=
  do start1_min <- time_to_minutes start1;
  do end1_min <- time_to_minutes end1;
  do start2_min <- time_to_minutes start2;
  do end2_min <- time_to_minutes end2;
  ret ((start1_min <? end2_min)%Z && (end1_min >? start2_min)%Z).

(** The inner loop of [has_schedule_conflict]: [sch1] against each block of
    the second discipline, stopping at the first overlap. *)
Fixpoint conflict_with_block (sch1 : ScheduleItem) (schedules2 : list ScheduleItem)
  : result (option ConflictInfo) :=
  match schedules2 with
  | [] => ret None
  | sch2 :: rest =>
      if (day sch1 =? day sch2)%Z then
        do overlap <- check_time_overlap (start sch1) (end_ sch1)
                                         (start sch2) (end_ sch2);
        if overlap then
          ret (Some {| conflict_day := day sch1;
                       time1 := start sch1 ++ "-" ++ end_ sch1;
                       time2 := start sch2 ++ "-" ++ end_ sch2 |})
        else conflict_with_block sch1 rest
      else conflict_with_block sch1 rest
  end.

(** [has_schedule_conflict(discipline1_schedules, discipline2_schedules)] *)
Fixpoint has_schedule_conflict (schedules1 schedules2 : list ScheduleItem)
  : result (bool * option ConflictInfo) :=
  match schedules1 with
  | [] => ret (false, None)
  | sch1 :: rest =>
      do found <- conflict_with_block sch1 schedules2;
      match found with
      | Some info => ret (true, Some info)
      | None => has_schedule_conflict rest schedules2
      end
  end.

(** *** What the specification says, in its own words *)

(** The token is well formed: exactly two pieces, both accepted by [int],
    hours within [[0, 24)] and minutes within [[0, 60)]. *)
Definition well_formed_time (s : string) (h m : Z) : Prop :=
  exists hs ms,
    split_colon s = [hs; ms] /\ py_int hs = Some h /\ py_int ms = Some m /\
    (0 <= h < 24)%Z /\ (0 <= m < 60)%Z.

(** Two half-open ranges of minutes overlap. *)
Definition overlaps (startA endA startB endB : Z) : Prop :=
  (startA < endB /\ endA > startB)%Z.

End WithInt.

End ScheduleValidation.

(** A reading of [int] for the strings of ASCII digits, on which it agrees
    with Python ("14" is 14, "00" is 0).  Python's [int] accepts more (a sign,
    surrounding white space, underscores between digits, other decimal
    digits); the examples below use digit strings only. *)
Definition digit_value (c : ascii) : option Z :=
  let n := Z.of_N (N_of_ascii c) in
  if (48 <=? n)%Z && (n <=? 57)%Z then Some (n - 48)%Z else None.

Fixpoint digits_value (acc : Z) (s : string) : option Z :=
  match s with
  | EmptyString => Some acc
  | String c s' =>
      match digit_value c with
      | Some d => digits_value (acc * 10 + d)%Z s'
      | None => None
      end
  end.

Definition int_of_digits (s : string) : option Z :=
  match s with
  | EmptyString => None
  | _ => digits_value 0 s
  end.

(** ** Prerequisite checker: [class PrerequisiteValidation] *)

Module PrerequisiteValidation.

(** [prereq_id not in completed or completed[prereq_id] < 7.0] *)
Definition is_missing (completed_disciplines : gmap string Q) (prereq_id : string)
  : bool :=
  match completed_disciplines !! prereq_id with
  | None => true
  | Some average => AcademicCalculations.Qlt_bool average 7
  end.

(** [check_prerequisites(discipline_prerequisites, completed_disciplines)]:
    the loop appends each missing code to [missing]. *)
Definition check_prerequisites (discipline_prerequisites : list string)
    (completed_disciplines : gmap string Q) : bool * list string :=
  let missing :=
    fold_left
      (fun missing prereq_id =>
         if is_missing completed_disciplines prereq_id
         then missing ++ [prereq_id] else missing)
      discipline_prerequisites [] in
  (Nat.eqb (length missing) 0, missing).

(** [validate_discipline_status(discipline_id, discipline_prerequisites,
    completed_disciplines, enrolled_ids)] *)
Definition validate_discipline_status (discipline_id : string)
    (discipline_prerequisites : list string)
    (completed_disciplines : gmap string Q)
    (enrolled_ids : list string) : string :=
  if match completed_disciplines !! discipline_id with
     | Some average => Qle_bool 7 average
     | None => false
     end
  then "completed"
  else if bool_decide (discipline_id ∈ enrolled_ids) then "studying"
  else
    let '(all_met, _) :=
      check_prerequisites discipline_prerequisites completed_disciplines in
    if all_met then "available" else "blocked".

(** *** What the specification says, in its own words *)

(** A code counts as passed when it is a key of [completed] with a value of
    at least 7.0. *)
Definition passed (completed : gmap string Q) (code : string) : Prop :=
  exists average, completed !! code = Some average /\ (7 <= average)%Q.

#[global] Instance passed_dec completed code : Decision (passed completed code).
Proof.
  unfold passed. destruct (completed !! code) as [average|].
  - destruct (Qlt_le_dec average 7) as [Hlt|Hle].
    + right. intros [a [[= <-] Ha]]. apply (Qlt_not_le _ _ Hlt Ha).
    + left. exists average. split; [reflexivity | exact Hle].
  - right. intros [a [[=] _]].
Defined.

(** [missingPrerequisites]: the required codes that are not passed. *)
Definition missingPrerequisites (required : list string)
    (completed : gmap string Q) : list string :=
  List.filter (fun code => negb (bool_decide (passed completed code))) required.

(** [allSatisfied]: true iff [missingPrerequisites] is empty. *)
Definition allSatisfied (required : list string) (completed : gmap string Q)
  : bool :=
  bool_decide (missingPrerequisites required completed = []).

(** The four statuses, as the strings the source returns. *)
Definition Completed : string := "completed".
Definition Studying : string := "studying".
Definition Available : string := "available".
Definition Blocked : string := "blocked".

(** [disciplineStatus]: the four cases in strict priority order. *)
Definition disciplineStatus (code : string) (requiredPrereqs : list string)
    (completed : gmap string Q) (currentlyEnrolled : list string) : string :=
  if decide (passed completed code) then Completed
  else if decide (code ∈ currentlyEnrolled) then Studying
  else if allSatisfied requiredPrereqs completed then Available
  else Blocked.

End PrerequisiteValidation.

(** ** The store: [class Database] *)

(** A stored discipline: the dict that [DisciplineCreate.dict()] produces,
    with the grade keys that [set_grades] and the grades route add.  An
    absent grade key and a [None] value are both [None]. *)
Record Discipline : Type := mkDiscipline {
  code : string;
  name : string;
  professor : string;
  period : Z;
  hours : Z;
  prerequisites : list string;
  schedules : list ScheduleItem;
  n1 : option Q;
  n2 : option Q;
  n3 : option Q;
  media_final : option Q
}.

(** [models.DisciplineCreate], the argument of [create_discipline]. *)
Record DisciplineCreate : Type := mkDisciplineCreate {
  new_code : string;
  new_name : string;
  new_professor : string;
  new_period : Z;
  new_hours : Z;
  new_prerequisites : list string;
  new_schedules : list ScheduleItem
}.

(** [discipline.dict()]: the dict to store, without grades. *)
Definition dict_of_create (discipline : DisciplineCreate) : Discipline :=
  {| code := new_code discipline;
     name := new_name discipline;
     professor := new_professor discipline;
     period := new_period discipline;
     hours := new_hours discipline;
     prerequisites := new_prerequisites discipline;
     schedules := new_schedules discipline;
     n1 := None; n2 := None; n3 := None; media_final := None |}.

(** [models.SemesterStatus] *)
Inductive SemesterStatus : Type := ATIVO | PLANEJADO | ENCERRADO.

Record Semester : Type := mkSemester {
  semester_code : string;
  status : SemesterStatus
}.

(** The partial dict handed to [update_discipline]: the set fields of a
    [models.DisciplineUpdate], or the [media_final] that the grades route
    writes.  [None] is a key that the dict does not hold; the stored value
    of that key stays. *)
Record DisciplineUpdate : Type := mkDisciplineUpdate {
  upd_name : option string;
  upd_professor : option string;
  upd_period : option Z;
  upd_hours : option Z;
  upd_schedules : option (list ScheduleItem);
  upd_prerequisites : option (list string);
  upd_media_final : option Q
}.

(** The three dicts the object holds in memory.  Writing them to the JSON
    files ([_save_data]) does not change them and is left out. *)
Record Database : Type := mkDatabase {
  disciplines : gmap string Discipline;
  semesters : gmap string Semester;
  enrollments : gmap string (list string)
}.

(** [l.remove(x)] on a list that contains [x]: drops the first occurrence. *)
Fixpoint list_remove (x : string) (l : list string) : list string :=
  match l with
  | [] => []
  | y :: l' => if decide (x = y) then l' else y :: list_remove x l'
  end.

Module Db.

Definition get_discipline (db : Database) (code : string) : option Discipline :=
  disciplines db !! code.

(** [list(self.disciplines.values())].  Python lists the values in the order
    the keys were inserted; the finite map lists them in the order of its
    keys.  Nothing proved below depends on that order. *)
Definition get_all_disciplines (db : Database) : list Discipline :=
  (map_to_list (disciplines db)).*2.

Definition create_discipline (db : Database) (discipline : DisciplineCreate)
  : Discipline * Database :=
  let disc_data := dict_of_create discipline in
  (disc_data,
   {| disciplines := <[new_code discipline := disc_data]> (disciplines db);
      semesters := semesters db;
      enrollments := enrollments db |}).

(** [dict.update(updates)] on a stored discipline. *)
Definition apply_updates (updates : DisciplineUpdate) (d : Discipline)
  : Discipline :=
  {| code := code d;
     name := default (name d) (upd_name updates);
     professor := default (professor d) (upd_professor updates);
     period := default (period d) (upd_period updates);
     hours := default (hours d) (upd_hours updates);
     prerequisites := default (prerequisites d) (upd_prerequisites updates);
     schedules := default (schedules d) (upd_schedules updates);
     n1 := n1 d; n2 := n2 d; n3 := n3 d;
     media_final := match upd_media_final updates with
                    | Some average => Some average
                    | None => media_final d
                    end |}.

Definition update_discipline (db : Database) (code : string)
    (updates : DisciplineUpdate) : option Discipline * Database :=
  match disciplines db !! code with
  | None => (None, db)
  | Some d =>
      let d' := apply_updates updates d in
      (Some d',
       {| disciplines := <[code := d']> (disciplines db);
          semesters := semesters db;
          enrollments := enrollments db |})
  end.

(** [delete_discipline(code)]: the loop visits every semester and removes the
    code from the lists that hold it. *)
Definition delete_discipline (db : Database) (code : string)
  : bool * Database :=
  match disciplines db !! code with
  | None => (false, db)
  | Some _ =>
      (true,
       {| disciplines := delete code (disciplines db);
          semesters := semesters db;
          enrollments :=
            (fun codes => if bool_decide (code ∈ codes)
                          then list_remove code codes else codes)
              <$> enrollments db |})
  end.

Definition bulk_create_disciplines (db : Database)
    (discs : list DisciplineCreate) : nat * Database :=
  fold_left
    (fun '(count, db) disc =>
       match disciplines db !! new_code disc with
       | None => (S count, snd (create_discipline db disc))
       | Some _ => (count, db)
       end)
    discs (O, db).

Definition get_semester (db : Database) (code : string) : option Semester :=
  semesters db !! code.

Definition create_semester (db : Database) (semester : Semester)
  : Semester * Database :=
  (semester,
   {| disciplines := disciplines db;
      semesters := <[semester_code semester := semester]> (semesters db);
      enrollments := <[semester_code semester := []]> (enrollments db) |}).

Definition update_semester (db : Database) (code : string)
    (new_status : option SemesterStatus) : option Semester * Database :=
  match semesters db !! code with
  | None => (None, db)
  | Some s =>
      let s' := {| semester_code := semester_code s;
                   status := default (status s) new_status |} in
      (Some s',
       {| disciplines := disciplines db;
          semesters := <[code := s']> (semesters db);
          enrollments := enrollments db |})
  end.

(** [get_enrolled_disciplines(semester_code)]: the stored disciplines of the
    codes of the list, in list order; codes without a discipline are skipped. *)
Definition get_enrolled_disciplines (db : Database) (semester_code : string)
  : list Discipline :=
  match enrollments db !! semester_code with
  | None => []
  | Some discipline_codes =>
      omap (fun code => disciplines db !! code) discipline_codes
  end.

Definition enroll_discipline (db : Database)
    (semester_code discipline_code : string) : bool * Database :=
  match enrollments db !! semester_code with
  | None => (false, db)
  | Some codes =>
      match disciplines db !! discipline_code with
      | None => (false, db)
      | Some _ =>
          if negb (bool_decide (discipline_code ∈ codes)) then
            (true,
             {| disciplines := disciplines db;
                semesters := semesters db;
                enrollments :=
                  <[semester_code := codes ++ [discipline_code]]>
                    (enrollments db) |})
          else (false, db)
      end
  end.

Definition unenroll_discipline (db : Database)
    (semester_code discipline_code : string) : bool * Database :=
  match enrollments db !! semester_code with
  | None => (false, db)
  | Some codes =>
      if bool_decide (discipline_code ∈ codes) then
        (true,
         {| disciplines := disciplines db;
            semesters := semesters db;
            enrollments :=
              <[semester_code := list_remove discipline_code codes]>
                (enrollments db) |})
      else (false, db)
  end.

Definition set_grades (db : Database) (discipline_code : string)
    (g1 g2 g3 : Q) : bool * Database :=
  match disciplines db !! discipline_code with
  | None => (false, db)
  | Some d =>
      (true,
       {| disciplines :=
            <[discipline_code :=
                {| code := code d; name := name d; professor := professor d;
                   period := period d; hours := hours d;
                   prerequisites := prerequisites d;
                   schedules := schedules d;
                   n1 := Some g1; n2 := Some g2; n3 := Some g3;
                   media_final := media_final d |}]> (disciplines db);
          semesters := semesters db;
          enrollments := enrollments db |})
  end.

(** The methods of [Database] that write, as the operations of the store. *)
Inductive store_op : Type :=
  | CreateDiscipline (discipline : DisciplineCreate)
  | UpdateDiscipline (code : string) (updates : DisciplineUpdate)
  | DeleteDiscipline (code : string)
  | BulkCreateDisciplines (discs : list DisciplineCreate)
  | CreateSemester (semester : Semester)
  | UpdateSemester (code : string) (new_status : option SemesterStatus)
  | EnrollDiscipline (semester_code discipline_code : string)
  | UnenrollDiscipline (semester_code discipline_code : string)
  | SetGrades (discipline_code : string) (g1 g2 g3 : Q).

(** The store after one operation. *)
Definition run_op (op : store_op) (db : Database) : Database :=
  match op with
  | CreateDiscipline d => snd (create_discipline db d)
  | UpdateDiscipline c u => snd (update_discipline db c u)
  | DeleteDiscipline c => snd (delete_discipline db c)
  | BulkCreateDisciplines l => snd (bulk_create_disciplines db l)
  | CreateSemester s => snd (create_semester db s)
  | UpdateSemester c st => snd (update_semester db c st)
  | EnrollDiscipline s c => snd (enroll_discipline db s c)
  | UnenrollDiscipline s c => snd (unenroll_discipline db s c)
  | SetGrades c g1 g2 g3 => snd (set_grades db c g1 g2 g3)
  end.

(** The store after a sequence of operations, the first one first. *)
Definition run_ops (ops : list store_op) (db : Database) : Database :=
  fold_left (fun db op => run_op op db) ops db.

(** *** What the specification says, in its own words *)

(** An enrollment list has no duplicate codes and every code in it refers
    to an existing discipline. *)
Definition enrollment_ok (db : Database) (codes : list string) : Prop :=
  NoDup codes /\ Forall (fun code => is_Some (disciplines db !! code)) codes.

(** The invariant: every semester's enrollment list is such a list. *)
Definition store_invariant (db : Database) : Prop :=
  map_Forall (fun _ codes => enrollment_ok db codes) (enrollments db).

#[global] Instance store_invariant_dec db : Decision (store_invariant db).
Proof. unfold store_invariant, enrollment_ok. apply _. Defined.

End Db.

(** ** Enrolment workflow: [api/enrollments.py] *)

Record ScheduleConflictResponse : Type := mkScheduleConflictResponse {
  has_conflict : bool;
  conflicting_discipline : option string;
  conflict_message : string
}.

Record PrerequisiteCheckResponse : Type := mkPrerequisiteCheckResponse {
  prerequisites_met : bool;
  missing_prerequisites : list string;
  prerequisite_message : string
}.

Record EnrollmentResponse : Type := mkEnrollmentResponse {
  success : bool;
  message : string;
  schedule_conflict : option ScheduleConflictResponse;
  prerequisite_check : option PrerequisiteCheckResponse
}.

Record EnrollmentRequest : Type := mkEnrollmentRequest {
  req_semester_code : string;
  req_discipline_code : string
}.

(** What a route raises: the [HTTPException] it builds itself, or an
    exception of the rules engine that it does not catch. *)
Inductive route_error : Type :=
  | HTTPException (status_code : Z) (detail : string)
  | Uncaught (e : error).

Module Enrollments.

Section WithInt.

Variable py_int : string -> option Z.

(** [disc.get('media_final') and disc.get('media_final') >= 7.0]: an absent
    average and the average 0.0 are both false in Python. *)
Definition has_passing_average (disc : Discipline) : bool :=
  match media_final disc with
  | None => false
  | Some average => negb (Qeq_bool average 0) && Qle_bool 7 average
  end.

(** One turn of the loop that fills [completed_disciplines]:
    [completed_disciplines[disc['code']] = disc['media_final']] for a
    discipline that passes the test. *)
Definition completed_step (completed : gmap string Q) (disc : Discipline)
  : gmap string Q :=
  if has_passing_average disc
  then <[code disc := default 0%Q (media_final disc)]> completed
  else completed.

(** The dict [completed_disciplines] that the route builds from the store. *)
Definition completed_disciplines (db : Database) : gmap string Q :=
  fold_left completed_step (Db.get_all_disciplines db) ∅.

(** The loop over [enrolled_disciplines]: the first enrolled discipline with
    which [has_schedule_conflict] reports a conflict. *)
Fixpoint first_conflicting (target_schedules : list ScheduleItem)
    (enrolled_disciplines : list Discipline) : result (option Discipline) :=
  match enrolled_disciplines with
  | [] => ret None
  | enrolled_disc :: rest =>
      do found <- ScheduleValidation.has_schedule_conflict py_int
                    target_schedules (schedules enrolled_disc);
      if fst found then ret (Some enrolled_disc)
      else first_conflicting target_schedules rest
  end.

(** [', '.join(missing_names)] *)
Definition join_names (names : list string) : string := String.concat ", " names.

(** [POST /api/enroll] *)
Definition enroll_discipline (db : Database) (request : EnrollmentRequest)
  : (route_error + EnrollmentResponse) * Database :=
  match Db.get_semester db (req_semester_code request) with
  | None => (inl (HTTPException 404 "Semestre não encontrado"), db)
  | Some semester =>
  match Db.get_discipline db (req_discipline_code request) with
  | None => (inl (HTTPException 404 "Disciplina não encontrada"), db)
  | Some discipline =>
      let completed := completed_disciplines db in
      let '(prereq_met, missing) :=
        PrerequisiteValidation.check_prerequisites
          (prerequisites discipline) completed in
      if negb prereq_met then
        let missing_names :=
          omap (fun code => name <$> Db.get_discipline db code) missing in
        (inr {| success := false;
                message := "Pré-requisitos não atendidos";
                schedule_conflict := None;
                prerequisite_check :=
                  Some {| prerequisites_met := false;
                          missing_prerequisites := missing_names;
                          prerequisite_message :=
                            "Disciplinas faltando: "
                              ++ join_names missing_names |} |}, db)
      else
        let enrolled_disciplines :=
          Db.get_enrolled_disciplines db (req_semester_code request) in
        match first_conflicting (schedules discipline) enrolled_disciplines with
        | inl e => (inl (Uncaught e), db)
        | inr (Some enrolled_disc) =>
            (inr {| success := false;
                    message := "Conflito de horário detectado";
                    schedule_conflict :=
                      Some {| has_conflict := true;
                              conflicting_discipline := Some (name enrolled_disc);
                              conflict_message :=
                                "Conflito com " ++ name enrolled_disc |};
                    prerequisite_check := None |}, db)
        | inr None =>
            let '(enrolled, db') :=
              Db.enroll_discipline db (req_semester_code request)
                                      (req_discipline_code request) in
            if enrolled then
              (inr {| success := true;
                      message := "Disciplina matriculada com sucesso";
                      schedule_conflict := None;
                      prerequisite_check := None |}, db')
            else
              (inr {| success := false;
                      message := "Disciplina já matriculada";
                      schedule_conflict := None;
                      prerequisite_check := None |}, db')
        end
  end
  end.

(** The detector reports a conflict, or none, between the target and an
    enrolled discipline. *)
Definition conflicts_with (target enrolled_disc : Discipline) : Prop :=
  exists info,
    ScheduleValidation.has_schedule_conflict py_int
      (schedules target) (schedules enrolled_disc) = inr (true, Some info).

Definition no_conflict_with (target enrolled_disc : Discipline) : Prop :=
  ScheduleValidation.has_schedule_conflict py_int
    (schedules target) (schedules enrolled_disc) = inr (false, None).

End WithInt.

(** *** What the specification says, in its own words *)

(** Some stored discipline with this code has a final average of at least
    7.0. *)
Definition stored_passed (db : Database) (c : string) : Prop :=
  exists key disc average,
    disciplines db !! key = Some disc /\ code disc = c /\
    media_final disc = Some average /\ (7 <= average)%Q.

(** The names of the codes that the store resolves; the others are dropped. *)
Definition resolve_names (db : Database) (codes : list string) : list string :=
  omap (fun c => name <$> disciplines db !! c) codes.

(** The terminal outcomes, under the names the specification gives them. *)

Definition PrerequisitesNotMet (missing_names : list string) : EnrollmentResponse :=
  {| success := false;
     message := "Pré-requisitos não atendidos";
     schedule_conflict := None;
     prerequisite_check :=
       Some {| prerequisites_met := false;
               missing_prerequisites := missing_names;
               prerequisite_message :=
                 "Disciplinas faltando: " ++ join_names missing_names |} |}.

Definition ScheduleConflict (conflicting_name : string) : EnrollmentResponse :=
  {| success := false;
     message := "Conflito de horário detectado";
     schedule_conflict :=
       Some {| has_conflict := true;
               conflicting_discipline := Some conflicting_name;
               conflict_message := "Conflito com " ++ conflicting_name |};
     prerequisite_check := None |}.

Definition EnrolledSuccessfully : EnrollmentResponse :=
  {| success := true;
     message := "Disciplina matriculada com sucesso";
     schedule_conflict := None;
     prerequisite_check := None |}.

Definition AlreadyEnrolled : EnrollmentResponse :=
  {| success := false;
     message := "Disciplina já matriculada";
     schedule_conflict := None;
     prerequisite_check := None |}.

End Enrollments.

(** ** The store a fresh installation starts from: [_initialize_default_data] *)

Module DefaultData.

Definition block (d : Z) (s e : string) : ScheduleItem :=
  {| day := d; start := s; end_ := e; location := "A definir" |}.

Definition discipline_of (c n p : string) (lvl : Z)
    (blocks : list ScheduleItem) (prereqs : list string) : Discipline :=
  {| code := c; name := n; professor := p; period := lvl; hours := 60;
     prerequisites := prereqs; schedules := blocks;
     n1 := None; n2 := None; n3 := None; media_final := None |}.

Definition introducao_programacao : Discipline :=
  discipline_of "14117" "INTRODUÇÃO À PROGRAMAÇÃO I" "Péricles Miranda" 1
    [block 1 "14:00" "16:00"; block 4 "16:00" "18:00"] [].

Definition algoritmos : Discipline :=
  discipline_of "06214" "ALGORITMOS" "TBD" 2
    [block 2 "14:00" "16:00"; block 4 "16:00" "18:00"] ["14117"].

Definition level1_disciplines : list Discipline :=
  [ discipline_of "06418" "ÁLGEBRA VETORIAL E LINEAR PARA COMPUTAÇÃO" "DM" 1
      [block 2 "16:00" "18:00"; block 4 "14:00" "16:00"] [];
    discipline_of "06507" "CÁLCULO NI" "DM" 1
      [block 1 "16:00" "18:00"; block 3 "14:00" "16:00"] [];
    discipline_of "14044" "INTRODUÇÃO À CIÊNCIA DA COMPUTAÇÃO" "Rafael Perazzo" 1
      [block 2 "14:00" "16:00"; block 5 "16:00" "18:00"] [];
    introducao_programacao;
    discipline_of "14203" "MATEMÁTICA DISCRETA I" "Pablo Sampaio" 1
      [block 3 "16:00" "18:00"; block 5 "14:00" "16:00"] [] ].

Definition level2_disciplines : list Discipline :=
  [ algoritmos;
    discipline_of "06508" "CÁLCULO NII" "DM" 2
      [block 1 "14:00" "16:00"; block 3 "16:00" "18:00"] ["06507"];
    discipline_of "14204" "MATEMÁTICA DISCRETA II" "Maigan Steffane" 2
      [block 3 "16:00" "18:00"; block 5 "14:00" "16:00"] ["14203"] ].

Definition default_db : Database :=
  {| disciplines :=
       fold_left (fun m disc => <[code disc := disc]> m)
                 (level1_disciplines ++ level2_disciplines) ∅;
     semesters :=
       <["2024.2" := {| semester_code := "2024.2"; status := PLANEJADO |}]>
         (<["2024.1" := {| semester_code := "2024.1"; status := ATIVO |}]> ∅);
     enrollments := <["2024.2" := []]> (<["2024.1" := []]> ∅) |}.

(** The default store with the list of semester 2024.1 replaced: a store
    in which these codes are enrolled. *)
Definition with_enrolled (codes : list string) : Database :=
  {| disciplines := disciplines default_db;
     semesters := semesters default_db;
     enrollments := <["2024.1" := codes]> (enrollments default_db) |}.

End DefaultData.

(** ** The course averages of [class AcademicCalculations] *)

Module CourseAverages.




(** [sum(values)]: from 0, left to right. *)
Definition py_sum (values : list Q) : Q := fold_left Qplus values 0%Q.




End CourseAverages.

(** ** Pairs of time blocks, as the conflict detector sees them *)

Module Blocks.

Section WithInt.

Variable py_int : string -> option Z.

(** Both tokens of the block convert, to the minutes [a] and [b]. *)
Definition block_minutes (sch : ScheduleItem) (a b : Z) : Prop :=
  ScheduleValidation.time_to_minutes py_int (start sch) = inr a /\
  ScheduleValidation.time_to_minutes py_int (end_ sch) = inr b.

Definition parses (sch : ScheduleItem) : Prop :=
  exists a b, block_minutes sch a b.

(** The two blocks are on the same day and their ranges overlap. *)
Definition clash (sch1 sch2 : ScheduleItem) : Prop :=
  day sch1 = day sch2 /\
  exists a b c d,
    block_minutes sch1 a b /\ block_minutes sch2 c d /\
    ScheduleValidation.overlaps a b c d.

(** The two blocks are on different days, or on the same day with ranges
    that convert and do not overlap. *)
Definition apart (sch1 sch2 : ScheduleItem) : Prop :=
  day sch1 <> day sch2 \/
  exists a b c d,
    block_minutes sch1 a b /\ block_minutes sch2 c d /\
    ~ ScheduleValidation.overlaps a b c d.

(** The detail that [has_schedule_conflict] builds for a pair. *)
Definition detail (sch1 sch2 : ScheduleItem) : ConflictInfo :=
  {| conflict_day := day sch1;
     time1 := start sch1 ++ "-" ++ end_ sch1;
     time2 := start sch2 ++ "-" ++ end_ sch2 |}.

End WithInt.

End Blocks.

(** ** Grades and statistics of [class Database] *)

(** The dict that [get_grades] returns. *)
Record Grades : Type := mkGrades {
  grades_n1 : option Q;
  grades_n2 : option Q;
  grades_n3 : option Q;
  grades_media_final : option Q
}.

Module Statistics.

(** [get_grades(discipline_code)] *)
Definition get_grades (db : Database) (discipline_code : string)
  : option Grades :=
  match disciplines db !! discipline_code with
  | None => None
  | Some disc =>
      Some {| grades_n1 := n1 disc; grades_n2 := n2 disc;
              grades_n3 := n3 disc;
              grades_media_final := media_final disc |}
  end.

(** [sum(...)] over integers: from 0, left to right. *)
Definition py_sum_int (values : list Z) : Z := fold_left Z.add values 0%Z.

(** [get_total_hours()] *)
Definition get_total_hours (db : Database) : Z :=
  py_sum_int (List.map hours (Db.get_all_disciplines db)).

(** [get_completed_hours()]: the hours of the disciplines that pass the test
    [disc.get('media_final') and disc.get('media_final') >= 7.0]. *)
Definition get_completed_hours (db : Database) : Z :=
  py_sum_int
    (List.map hours
       (List.filter Enrollments.has_passing_average (Db.get_all_disciplines db))).

(** [get_general_average()] *)
Definition get_general_average (db : Database) : option Q :=
  let completed :=
    List.map (fun disc => default 0%Q (media_final disc))
      (List.filter Enrollments.has_passing_average (Db.get_all_disciplines db)) in
  match completed with
  | [] => None
  | _ =>
      Some (round2 (CourseAverages.py_sum completed
                    / inject_Z (Z.of_nat (length completed))))
  end.

(** *** Invariants of the store, beside the one on the enrollment lists *)

(** Every discipline is stored under its own code. *)
Definition keys_are_codes (db : Database) : Prop :=
  map_Forall (fun key disc => code disc = key) (disciplines db).

(** Every semester has an enrollment list. *)
Definition semesters_have_lists (db : Database) : Prop :=
  forall s, is_Some (semesters db !! s) -> is_Some (enrollments db !! s).

#[global] Instance keys_are_codes_dec db : Decision (keys_are_codes db).
Proof. unfold keys_are_codes. apply _. Defined.

End Statistics.

(** ** Validation of discipline data: [class DataValidation] *)

Module DataValidation.

Section WithStrip.

(** Python's [str.strip()]. *)
Variable py_strip : string -> string.

(** [bool(code and isinstance(code, str) and len(code.strip()) > 0)] *)
Definition validate_discipline_code (code : string) : bool :=
  negb (String.eqb code "") && (0 <? String.length (py_strip code))%nat.

(** [isinstance(period, int) and 1 <= period <= 9] *)
Definition validate_period (period : Z) : bool :=
  (1 <=? period)%Z && (period <=? 9)%Z.

(** [isinstance(hours, int) and hours > 0] *)
Definition validate_hours (hours : Z) : bool := (hours >? 0)%Z.

(** [validate_discipline_data(code, name, professor, period, hours)] *)
Definition validate_discipline_data (code name professor : string)
    (period hours : Z) : bool * list string :=
  let errors := [] in
  let errors :=
    if negb (validate_discipline_code code)
    then errors ++ ["Código de disciplina inválido"%string] else errors in
  let errors :=
    if String.eqb name ""
    then errors ++ ["Nome da disciplina inválido"%string] else errors in
  let errors :=
    if String.eqb professor ""
    then errors ++ ["Nome do professor inválido"%string] else errors in
  let errors :=
    if negb (validate_period period)
    then errors ++ ["Período deve estar entre 1 e 9"%string] else errors in
  let errors :=
    if negb (validate_hours hours)
    then errors ++ ["Carga horária deve ser maior que 0"%string] else errors in
  (Nat.eqb (length errors) 0, errors).

End WithStrip.

End DataValidation.

(** ** The other routes of [api/enrollments.py] *)


Module EnrollmentRoutes.

(** [POST /api/unenroll] *)
Definition unenroll_discipline (db : Database) (request : EnrollmentRequest)
  : EnrollmentResponse * Database :=
  let '(removed, db') :=
    Db.unenroll_discipline db (req_semester_code request)
                              (req_discipline_code request) in
  if removed then
    ({| success := true;
        message := "Matrícula removida com sucesso";
        schedule_conflict := None;
        prerequisite_check := None |}, db')
  else
    ({| success := false;
        message := "Disciplina não estava matriculada";
        schedule_conflict := None;
        prerequisite_check := None |}, db').

(** [POST /api/semesters] *)
Definition create_semester (db : Database) (semester : Semester)
  : (route_error + Semester) * Database :=
  match Db.get_semester db (semester_code semester) with
  | Some _ => (inl (HTTPException 400 "Semestre já existe"), db)
  | None =>
      let '(sem_data, db') := Db.create_semester db semester in
      (inr sem_data, db')
  end.

(** [GET /api/semesters/{code}/enrolled] *)
Definition get_enrolled_disciplines (db : Database) (code : string)
  : route_error + list Discipline :=
  match Db.get_semester db code with
  | None => inl (HTTPException 404 "Semestre não encontrado")
  | Some _ => inr (Db.get_enrolled_disciplines db code)
  end.


(** The two outcomes of unenrolment. *)
Definition Removed : EnrollmentResponse :=
  {| success := true;
     message := "Matrícula removida com sucesso";
     schedule_conflict := None;
     prerequisite_check := None |}.

Definition NotEnrolled : EnrollmentResponse :=
  {| success := false;
     message := "Disciplina não estava matriculada";
     schedule_conflict := None;
     prerequisite_check := None |}.

End EnrollmentRoutes.

(** ** The routes of [api/disciplines.py] *)

(** [models.GradesRequest]; the route reads the three grades. *)
Record GradesRequest : Type := mkGradesRequest {
  req_n1 : option Q;
  req_n2 : option Q;
  req_n3 : option Q
}.

Record FinalExamResponse : Type := mkFinalExamResponse {
  average : Q;
  needs_final_exam : bool;
  final_exam_grade_needed : option Q;
  final_exam_message : string
}.

Module DisciplineRoutes.

Section WithPython.

(** Python's [str.strip()] and the text of a float in an f-string. *)
Variable py_strip : string -> string.
Variable py_str : Q -> string.

(** [GET /api/disciplines/{code}] *)
Definition get_discipline (db : Database) (code : string)
  : route_error + Discipline :=
  match Db.get_discipline db code with
  | None => inl (HTTPException 404 "Disciplina não encontrada")
  | Some discipline => inr discipline
  end.

(** [POST /api/disciplines] *)
Definition create_discipline (db : Database) (discipline : DisciplineCreate)
  : (route_error + Discipline) * Database :=
  match Db.get_discipline db (new_code discipline) with
  | Some _ => (inl (HTTPException 400 "Disciplina já existe"), db)
  | None =>
      let '(valid, errors) :=
        DataValidation.validate_discipline_data py_strip
          (new_code discipline) (new_name discipline)
          (new_professor discipline) (new_period discipline)
          (new_hours discipline) in
      if negb valid then
        (inl (HTTPException 400 (String.concat "; " errors)), db)
      else
        let '(disc_data, db') := Db.create_discipline db discipline in
        (inr disc_data, db')
  end.

(** [DELETE /api/disciplines/{code}] *)
Definition delete_discipline (db : Database) (code : string)
  : (route_error + string) * Database :=
  let '(deleted, db') := Db.delete_discipline db code in
  if negb deleted
  then (inl (HTTPException 404 "Disciplina não encontrada"), db')
  else (inr "Disciplina deletada com sucesso"%string, db').

(** The text of the [ValueError] of [calculate_ufrpe_average]: it names the
    first grade, in the order n1, n2, n3, that is out of range. *)
Definition grade_error_detail (notes : list Q) : string :=
  match List.find (fun note => negb (AcademicCalculations.in_range note)) notes with
  | Some note => ("Nota " ++ py_str note ++ " fora do intervalo 0-10")%string
  | None => ""%string
  end.

(** [{'media_final': average}] *)
Definition media_final_update (average : Q) : DisciplineUpdate :=
  {| upd_name := None; upd_professor := None; upd_period := None;
     upd_hours := None; upd_schedules := None; upd_prerequisites := None;
     upd_media_final := Some average |}.

(** [POST /api/disciplines/{code}/grades] *)
Definition set_grades (db : Database) (code : string) (grades : GradesRequest)
  : (route_error + FinalExamResponse) * Database :=
  match Db.get_discipline db code with
  | None => (inl (HTTPException 404 "Disciplina não encontrada"), db)
  | Some discipline =>
  match req_n1 grades, req_n2 grades, req_n3 grades with
  | Some g1, Some g2, Some g3 =>
      match AcademicCalculations.calculate_ufrpe_average g1 g2 g3 with
      | inl _ =>
          (inl (HTTPException 400 (grade_error_detail [g1; g2; g3])), db)
      | inr average =>
          let db1 := snd (Db.set_grades db code g1 g2 g3) in
          let db2 :=
            snd (Db.update_discipline db1 code (media_final_update average)) in
          match AcademicCalculations.calculate_final_exam_grade average with
          | inl _ =>
              (inl (HTTPException 400
                      ("Média " ++ py_str average
                       ++ " fora do intervalo 0-10")%string),
               db2)
          | inr final_exam_grade =>
              let message :=
                if Qle_bool 7 average then "Aprovado!"%string
                else match final_exam_grade with
                     | Some needed =>
                         ("Você precisa de " ++ py_str needed
                          ++ " na prova final")%string
                     | None => "Reprovado"%string
                     end in
              (inr {| average := average;
                      needs_final_exam :=
                        match final_exam_grade with
                        | Some _ => true
                        | None => false
                        end;
                      final_exam_grade_needed := final_exam_grade;
                      final_exam_message := message |}, db2)
          end
      end
  | _, _, _ =>
      (inl (HTTPException 400 "Todas as três notas são obrigatórias"), db)
  end
  end.

(** [GET /api/disciplines/{code}/grades] *)
Definition get_grades (db : Database) (code : string) : route_error + Grades :=
  match Statistics.get_grades db code with
  | None => inl (HTTPException 404 "Disciplina não encontrada")
  | Some grades => inr grades
  end.

End WithPython.

End DisciplineRoutes.

(** ** Sample data for the examples *)

Module SampleData.

(** A discipline that the default data does not hold. *)
Definition estagio : DisciplineCreate :=
  {| new_code := "99002"; new_name := "ESTÁGIO"; new_professor := "TBD";
     new_period := 9; new_hours := 120; new_prerequisites := [];
     new_schedules := [] |}.

(** Stand-ins for [str.strip()] and for the text of a float, for examples
    that depend on neither: the first is right on a string without white
    space around it. *)
Definition same_text (s : string) : string := s.

End SampleData.

(** ** What the routes are checked against *)

Module RouteSpec.


Section WithStrip.

Variable py_strip : string -> string.

(** The five conditions that [validate_discipline_data] checks. *)
Definition discipline_data_ok (code name professor : string)
    (period hours : Z) : Prop :=
  code <> ""%string /\ (0 < String.length (py_strip code))%nat /\
  name <> ""%string /\ professor <> ""%string /\
  (1 <= period <= 9)%Z /\ (0 < hours)%Z.

End WithStrip.

End RouteSpec.

(** ** The CSV importer: [class CSVImporter] *)

(** A row as [csv.DictReader] yields it once the headers are checked: the
    nine columns, each a string, or [None] when the line is too short to
    reach the column. *)
Record CsvRow : Type := mkCsvRow {
  col_codigo : option string;
  col_nome : option string;
  col_professor : option string;
  col_periodo : option string;
  col_local : option string;
  col_dia : option string;
  col_inicio : option string;
  col_fim : option string;
  col_prerequisitos : option string
}.

(** The two [AttributeError]s that the loop over the rows can meet. *)
Inductive row_exception : Type :=
  | NoneHasNoStrip
  | NoValidateDayOfWeek.

(** [s.split(sep)] for a separator of one character. *)
Fixpoint split_on (sep : ascii) (s : string) : list string :=
  match s with
  | EmptyString => [EmptyString]
  | String c s' =>
      if Ascii.eqb c sep then EmptyString :: split_on sep s'
      else match split_on sep s' with
           | piece :: pieces => String c piece :: pieces
           | [] => [String c EmptyString]
           end
  end.

Module CSVImporter.

Section WithPython.

(** Python's [int] and [str.strip()], the text of an [int] in an f-string
    and the text [str(e)] of an exception. *)
Variable py_int : string -> option Z.
Variable py_strip : string -> string.
Variable py_str_int : Z -> string.
Variable py_str_exception : row_exception -> string.

(** [_validate_time_format(time_str)] *)
Definition _validate_time_format (time_str : string) : bool :=
  if String.eqb time_str "" || negb (has_colon time_str) then false
  else
    let parts := split_colon time_str in
    if negb (Nat.eqb (length parts) 2) then false
    else
      match py_int (nth 0 parts ""%string), py_int (nth 1 parts ""%string) with
      | Some hours, Some minutes =>
          (0 <=? hours)%Z && (hours <? 24)%Z
          && ((0 <=? minutes)%Z && (minutes <? 60)%Z)
      | _, _ => false
      end.

(** [row.get(column, '').strip()] *)
Definition strip_cell (cell : option string) : option string :=
  py_strip <$> cell.

(** [f"Linha {row_num}: ..."] *)
Definition line_error (row_num : Z) (text : string) : string :=
  ("Linha " ++ py_str_int row_num ++ ": " ++ text)%string.

(** [[p.strip() for p in prerequisites_str.split(',') if p.strip()]] *)
Definition parse_prerequisites (prerequisites_str : string) : list string :=
  if String.eqb prerequisites_str "" then []
  else
    List.filter (fun p => negb (String.eqb p ""))
      (List.map py_strip (split_on "," prerequisites_str)).

(** The grouping by code: [disciplines_map] as the list of its values in
    insertion order.  A new code appends a discipline of 60 hours with this
    one schedule; a known code gets the schedule appended. *)
Fixpoint add_schedule (code name professor : string) (period : Z)
    (prerequisites : list string) (schedule : ScheduleItem)
    (disciplines_map : list DisciplineCreate) : list DisciplineCreate :=
  match disciplines_map with
  | [] =>
      [ {| new_code := code; new_name := name; new_professor := professor;
           new_period := period; new_hours := 60;
           new_prerequisites := prerequisites;
           new_schedules := [schedule] |} ]
  | disc :: rest =>
      if String.eqb (new_code disc) code then
        {| new_code := new_code disc; new_name := new_name disc;
           new_professor := new_professor disc;
           new_period := new_period disc; new_hours := new_hours disc;
           new_prerequisites := new_prerequisites disc;
           new_schedules := new_schedules disc ++ [schedule] |} :: rest
      else
        disc :: add_schedule code name professor period prerequisites
                  schedule rest
  end.

(** The body of the loop over the rows, for one row.  The argument
    [validate_day_of_week] is the attribute of that name of
    [DataValidation]: [None] when the class has no such attribute, so that
    evaluating [DataValidation.validate_day_of_week] raises
    [AttributeError], which the handler of the row catches. *)
Definition process_row (validate_day_of_week : option (Z -> bool))
    (row_num : Z) (row : CsvRow)
    (state : list DisciplineCreate * list string)
  : list DisciplineCreate * list string :=
  let '(disciplines_map, errors) := state in
  let fail text := (disciplines_map, errors ++ [line_error row_num text]) in
  match strip_cell (col_codigo row), strip_cell (col_nome row),
        strip_cell (col_professor row), strip_cell (col_periodo row),
        strip_cell (col_local row), strip_cell (col_dia row),
        strip_cell (col_inicio row), strip_cell (col_fim row),
        strip_cell (col_prerequisitos row) with
  | Some code, Some name, Some professor, Some period_str, Some location,
    Some day_str, Some start_time, Some end_time, Some prerequisites_str =>
      if String.eqb code "" then fail "Código vazio"%string
      else if String.eqb name "" then fail "Nome vazio"%string
      else if String.eqb professor "" then fail "Professor vazio"%string
      else
        match py_int period_str with
        | None =>
            fail ("Período '" ++ period_str ++ "' não é um número")%string
        | Some period =>
            if negb (DataValidation.validate_period period) then
              fail ("Período " ++ py_str_int period
                    ++ " inválido (deve ser 1-9)")%string
            else
              match py_int day_str with
              | None =>
                  fail ("Dia '" ++ day_str ++ "' não é um número")%string
              | Some day =>
                  match validate_day_of_week with
                  | None =>
                      fail ("Erro ao processar - "
                            ++ py_str_exception NoValidateDayOfWeek)%string
                  | Some valid_day =>
                      if negb (valid_day day) then
                        fail ("Dia " ++ py_str_int day
                              ++ " inválido (deve ser 1-5)")%string
                      else if negb (_validate_time_format start_time) then
                        fail ("Horário de início '" ++ start_time
                              ++ "' inválido (use HH:MM)")%string
                      else if negb (_validate_time_format end_time) then
                        fail ("Horário de término '" ++ end_time
                              ++ "' inválido (use HH:MM)")%string
                      else
                        let prerequisites :=
                          parse_prerequisites prerequisites_str in
                        let schedule :=
                          {| day := day; start := start_time;
                             end_ := end_time; location := location |} in
                        (add_schedule code name professor period
                           prerequisites schedule disciplines_map, errors)
                  end
              end
        end
  | _, _, _, _, _, _, _, _, _ =>
      fail ("Erro ao processar - " ++ py_str_exception NoneHasNoStrip)%string
  end.

(** The loop of [parse_csv] over the rows, numbered from 2, and the list of
    the grouped disciplines that it returns with the errors. *)
Fixpoint process_rows (validate_day_of_week : option (Z -> bool))
    (row_num : Z) (rows : list CsvRow)
    (state : list DisciplineCreate * list string)
  : list DisciplineCreate * list string :=
  match rows with
  | [] => state
  | row :: rest =>
      process_rows validate_day_of_week (row_num + 1)%Z rest
        (process_row validate_day_of_week row_num row state)
  end.

(** [business_logic.DataValidation] defines [validate_discipline_code],
    [validate_period], [validate_hours] and [validate_discipline_data]: it
    has no [validate_day_of_week]. *)
Definition DataValidation_validate_day_of_week : option (Z -> bool) := None.

(** What [parse_csv] returns from the rows of a file whose headers passed. *)
Definition parse_rows (rows : list CsvRow)
  : list DisciplineCreate * list string :=
  process_rows DataValidation_validate_day_of_week 2 rows ([], []).

End WithPython.

End CSVImporter.

(** ** The weekly schedule: [GET /api/schedule/{semester_code}] *)

(** An entry of a day of the schedule. *)
Record ScheduleEntry : Type := mkScheduleEntry {
  entry_discipline_code : string;
  entry_discipline_name : string;
  entry_start : string;
  entry_end : string;
  entry_location : string
}.

(** What the route raises: the 404 it builds, or the [KeyError] of a day
    that is not a key of the schedule. *)
Inductive schedule_error : Type :=
  | ScheduleHTTPException (status_code : Z) (detail : string)
  | KeyError (day : Z).

Module ScheduleRoute.

(** [{day: [] for day in range(1, 6)}] *)
Definition empty_week : gmap Z (list ScheduleEntry) :=
  list_to_map [(1%Z, []); (2%Z, []); (3%Z, []); (4%Z, []); (5%Z, [])].

(** The dict appended for a block of a discipline. *)
Definition entry_of (discipline : Discipline) (schedule_item : ScheduleItem)
  : ScheduleEntry :=
  {| entry_discipline_code := code discipline;
     entry_discipline_name := name discipline;
     entry_start := start schedule_item;
     entry_end := end_ schedule_item;
     entry_location := location schedule_item |}.

(** [schedule[day].append(...)] *)
Definition append_entry (schedule : gmap Z (list ScheduleEntry))
    (day : Z) (entry : ScheduleEntry)
  : schedule_error + gmap Z (list ScheduleEntry) :=
  match schedule !! day with
  | None => inl (KeyError day)
  | Some entries => inr (<[day := entries ++ [entry]]> schedule)
  end.

(** The inner loop: the blocks of one discipline. *)
Fixpoint add_blocks (discipline : Discipline) (items : list ScheduleItem)
    (schedule : gmap Z (list ScheduleEntry))
  : schedule_error + gmap Z (list ScheduleEntry) :=
  match items with
  | [] => inr schedule
  | schedule_item :: rest =>
      match append_entry schedule (day schedule_item)
              (entry_of discipline schedule_item) with
      | inl e => inl e
      | inr schedule' => add_blocks discipline rest schedule'
      end
  end.

(** The outer loop: the enrolled disciplines. *)
Fixpoint add_disciplines (enrolled : list Discipline)
    (schedule : gmap Z (list ScheduleEntry))
  : schedule_error + gmap Z (list ScheduleEntry) :=
  match enrolled with
  | [] => inr schedule
  | discipline :: rest =>
      match add_blocks discipline (schedules discipline) schedule with
      | inl e => inl e
      | inr schedule' => add_disciplines rest schedule'
      end
  end.

(** [entries.sort(key=lambda x: x['start'])]: a stable sort by the start
    text, compared as strings.  An entry moves past another one only when
    that one is strictly smaller. *)
Fixpoint insert_by_start (x : ScheduleEntry) (l : list ScheduleEntry)
  : list ScheduleEntry :=
  match l with
  | [] => [x]
  | y :: l' =>
      if String.ltb (entry_start y) (entry_start x)
      then y :: insert_by_start x l' else x :: l
  end.

Definition sort_by_start (l : list ScheduleEntry) : list ScheduleEntry :=
  fold_right insert_by_start [] l.

(** [get_schedule(semester_code)] *)
Definition get_schedule (db : Database) (semester_code : string)
  : schedule_error + gmap Z (list ScheduleEntry) :=
  match Db.get_semester db semester_code with
  | None => inl (ScheduleHTTPException 404 "Semestre não encontrado")
  | Some _ =>
      let enrolled := Db.get_enrolled_disciplines db semester_code in
      match add_disciplines enrolled empty_week with
      | inl e => inl e
      | inr schedule => inr (sort_by_start <$> schedule)
      end
  end.

(** *** What the result is checked against *)

(** The blocks of the enrolled disciplines, as entries with their day, in
    the order in which the loops meet them. *)
Definition all_entries (enrolled : list Discipline) : list (Z * ScheduleEntry) :=
  List.concat
    (List.map (fun discipline =>
                 List.map (fun item => (day item, entry_of discipline item))
                          (schedules discipline))
              enrolled).

(** The two loops as one loop over those entries. *)
Fixpoint fill (entries : list (Z * ScheduleEntry))
    (schedule : gmap Z (list ScheduleEntry))
  : schedule_error + gmap Z (list ScheduleEntry) :=
  match entries with
  | [] => inr schedule
  | (d, entry) :: rest =>
      match append_entry schedule d entry with
      | inl e => inl e
      | inr schedule' => fill rest schedule'
      end
  end.

(** The entries of one day, in that order. *)
Definition entries_of_day (d : Z) (entries : list (Z * ScheduleEntry))
  : list ScheduleEntry :=
  List.map snd (List.filter (fun e => (fst e =? d)%Z) entries).

(** No entry starts, as a string, before the one it follows. *)
Fixpoint sorted_by_start (l : list ScheduleEntry) : Prop :=
  match l with
  | [] => True
  | x :: l' =>
      match l' with
      | [] => True
      | y :: _ => String.leb (entry_start x) (entry_start y) = true
      end /\ sorted_by_start l'
  end.

End ScheduleRoute.

(** * Properties *)

Import AcademicCalculations.

Section RoundingFacts.

Lemma round_half_even_compat (x y : Q) :
  (x == y)%Q -> round_half_even x = round_half_even y.
Proof.
  intros Hxy. unfold round_half_even.
  rewrite (Qfloor_comp x y Hxy).
  assert (Hc : ((x - inject_Z (Qfloor y) ?= 1 # 2)
                = (y - inject_Z (Qfloor y) ?= 1 # 2))%Q).
  { apply Qcompare_comp; [rewrite Hxy|]; reflexivity. }
  rewrite Hc. reflexivity.
Qed.

Lemma round2_compat (x y : Q) : (x == y)%Q -> round2 x = round2 y.
Proof.
  intros Hxy. unfold round2. f_equal.
  apply round_half_even_compat. rewrite Hxy. reflexivity.
Qed.

(** A value that already is a whole number of hundredths is left alone. *)
Lemma round_half_even_inject (z : Z) : round_half_even (inject_Z z) = z.
Proof.
  unfold round_half_even. rewrite Qfloor_Z.
  destruct (Qcompare_spec (inject_Z z - inject_Z z) (1 # 2)) as [He|Hl|Hg];
    [lra | reflexivity | lra].
Qed.

Lemma round2_hundredths (z : Z) : round2 (z # 100) = z # 100.
Proof.
  unfold round2. f_equal.
  rewrite (round_half_even_compat ((z # 100) * 100) (inject_Z z)).
  - apply round_half_even_inject.
  - unfold Qeq, inject_Z. simpl. lia.
Qed.

(** The rounded value is within half a hundredth of the argument. *)
Lemma round_half_even_near (q : Q) :
  (Qabs (inject_Z (round_half_even q) - q) <= 1 # 2)%Q.
Proof.
  unfold round_half_even.
  pose proof (Qfloor_le q) as Hlo. pose proof (Qlt_floor q) as Hhi.
  rewrite inject_Z_plus in Hhi. change (inject_Z 1) with 1%Q in Hhi.
  destruct (Qcompare_spec (q - inject_Z (Qfloor q)) (1 # 2)) as [He|Hl|Hg];
    [destruct (Z.even (Qfloor q))| |];
    rewrite ?inject_Z_plus; change (inject_Z 1) with 1%Q;
    apply Qabs_Qle_condition; split; lra.
Qed.

End RoundingFacts.

Section GradeFacts.



Lemma Qlt_bool_iff (x y : Q) : Qlt_bool x y = true <-> (x < y)%Q.
Proof.
  unfold Qlt_bool. rewrite negb_true_iff.
  destruct (Qle_bool y x) eqn:E.
  - apply Qle_bool_iff in E. split; [discriminate | lra].
  - split; [intros _ | reflexivity].
    apply Qnot_le_lt. intros H. apply Qle_bool_iff in H. congruence.
Qed.

Lemma Qlt_bool_false (x y : Q) : Qlt_bool x y = false <-> (y <= x)%Q.
Proof.
  unfold Qlt_bool. rewrite negb_false_iff. apply Qle_bool_iff.
Qed.






End GradeFacts.

Section FinalAverage.






(** The specification's sample values. *)
Example final_average_samples :
  calculate_ufrpe_average 10 10 10 = inr (1000 # 100) /\
  calculate_ufrpe_average 0 0 0 = inr (0 # 100) /\
  calculate_ufrpe_average 10 8 2 = inr (900 # 100).
Proof. repeat split; vm_compute; reflexivity. Qed.

End FinalAverage.

Section RemedialExam.



End RemedialExam.

Section CourseProgress.

(** The two assignments that adjust [completed_hours] clamp it. *)
Lemma clamp_hours_code (completed total : Z) :
  (0 < total)%Z ->
  (let c := if (completed <? 0)%Z then 0%Z else completed in
   if (c >? total)%Z then total else c) = clamp_hours completed total.
Proof.
  intros Ht. unfold clamp_hours. cbv zeta.
  destruct (Z.ltb_spec completed 0); rewrite Z.gtb_ltb;
    [destruct (Z.ltb_spec total 0) | destruct (Z.ltb_spec total completed)];
    lia.
Qed.



End CourseProgress.

Import PrerequisiteValidation.

Section Prerequisites.

Implicit Types (completed : gmap string Q) (required : list string).

(** The test of the source ([not in ... or ... < 7.0]) is the negation of
    the specification's ("a key with value >= 7.0"). *)
Lemma is_missing_not_passed completed (code : string) :
  is_missing completed code = negb (bool_decide (passed completed code)).
Proof.
  unfold is_missing.
  destruct (decide (passed completed code)) as [Hp|Hn].
  - rewrite (bool_decide_eq_true_2 _ Hp).
    destruct Hp as [average [-> Hle]]. simpl.
    apply Qlt_bool_false, Hle.
  - rewrite (bool_decide_eq_false_2 _ Hn). simpl.
    destruct (completed !! code) as [average|] eqn:E; [|reflexivity].
    apply Qlt_bool_iff. apply Qnot_le_lt. intros Hle.
    apply Hn. exists average. split; [exact E | exact Hle].
Qed.

(** The loop of [check_prerequisites] from any accumulated [missing]. *)
Lemma check_loop_filter completed required (acc : list string) :
  fold_left
    (fun missing prereq_id =>
       if is_missing completed prereq_id
       then missing ++ [prereq_id] else missing)
    required acc
  = acc ++ missingPrerequisites required completed.
Proof.
  revert acc. induction required as [|code required IH]; intros acc; simpl.
  - rewrite app_nil_r. reflexivity.
  - rewrite IH, is_missing_not_passed.
    destruct (negb (bool_decide (passed completed code))); [|reflexivity].
    rewrite <- app_assoc. reflexivity.
Qed.

Lemma check_prerequisites_missing completed required :
  check_prerequisites required completed
  = (allSatisfied required completed, missingPrerequisites required completed).
Proof.
  unfold check_prerequisites, allSatisfied.
  rewrite check_loop_filter. simpl. f_equal.
  destruct (missingPrerequisites required completed) as [|c l]; reflexivity.
Qed.

(** C4.  The second component of [check_prerequisites] is exactly the
    sub-list of the required codes (same order, repetitions kept) that are
    not a key of [completed] with a value of at least 7.0; the first
    component is true iff that list is empty. *)
Theorem missing_prerequisites_exact required completed :
  snd (check_prerequisites required completed)
    = List.filter (fun code => negb (bool_decide (passed completed code)))
                  required /\
  snd (check_prerequisites required completed)
    = missingPrerequisites required completed /\
  fst (check_prerequisites required completed)
    = allSatisfied required completed /\
  (fst (check_prerequisites required completed) = true <->
   snd (check_prerequisites required completed) = []).
Proof.
  rewrite check_prerequisites_missing. simpl.
  repeat split; unfold allSatisfied.
  - apply bool_decide_eq_true_1.
  - apply bool_decide_eq_true_2.
Qed.

(** The specification's sample values. *)
Example missing_prerequisites_samples :
  snd (check_prerequisites ["A"; "B"] {[ "A" := 7%Q ]}) = ["B"] /\
  snd (check_prerequisites ["A"; "B"] {[ "A" := (69 # 10)%Q ]}) = ["A"; "B"] /\
  snd (check_prerequisites ["B"; "A"; "B"] {[ "A" := 7%Q ]}) = ["B"; "B"].
Proof. repeat split; vm_compute; reflexivity. Qed.

(** C5.  [validate_discipline_status] decides in strict priority order:
    completed when the code is a key of [completed] with a value of at
    least 7.0; otherwise studying when the code is in the enrolled list;
    otherwise available when every prerequisite is satisfied; otherwise
    blocked.  A discipline completed with 8.0 that is also in the enrolled
    list is reported completed. *)
Theorem discipline_status_priority (code : string) required completed
    (enrolled : list string) :
  validate_discipline_status code required completed enrolled
    = disciplineStatus code required completed enrolled /\
  validate_discipline_status "14117" [] {[ "14117" := 8%Q ]} ["14117"]
    = Completed.
Proof.
  split; [|vm_compute; reflexivity].
  unfold validate_discipline_status, disciplineStatus.
  rewrite check_prerequisites_missing.
  destruct (decide (passed completed code)) as [Hp|Hn].
  - destruct Hp as [average [-> Hle]].
    apply Qle_bool_iff in Hle. rewrite Hle. reflexivity.
  - assert (E : match completed !! code with
                | Some average => Qle_bool 7 average
                | None => false
                end = false).
    { destruct (completed !! code) as [average|] eqn:E; [|reflexivity].
      destruct (Qle_bool 7 average) eqn:E7; [|reflexivity].
      exfalso. apply Hn. exists average.
      split; [exact E | apply Qle_bool_iff, E7]. }
    rewrite E.
    destruct (decide (code ∈ enrolled)) as [Hin|Hout].
    + rewrite (bool_decide_eq_true_2 _ Hin). reflexivity.
    + rewrite (bool_decide_eq_false_2 _ Hout). reflexivity.
Qed.

End Prerequisites.

Import ScheduleValidation.

Section TimeParsing.

(** [split_colon] is Python's [split(':')]: joining the pieces with colons
    gives the string back, and no piece holds a colon. *)
Lemma split_colon_nonempty (s : string) : split_colon s <> [].
Proof.
  destruct s as [|c s]; simpl; [discriminate|].
  destruct (Ascii.eqb c ":"); [discriminate|].
  destruct (split_colon s); discriminate.
Qed.

Example split_colon_samples :
  split_colon "14:00" = ["14"; "00"]%string /\
  split_colon "1400" = ["1400"]%string /\
  split_colon "" = [""]%string /\
  split_colon ":" = [""; ""]%string /\
  split_colon "1::2" = ["1"; ""; "2"]%string.
Proof. repeat split. Qed.

Lemma split_colon_join (s : string) : String.concat ":" (split_colon s) = s.
Proof.
  induction s as [|c s IH]; [reflexivity|]. simpl.
  destruct (Ascii.eqb_spec c ":") as [->|Hne].
  - pose proof (split_colon_nonempty s) as Hn.
    simpl. destruct (split_colon s) as [|p ps]; [contradiction|].
    simpl in *. rewrite IH. reflexivity.
  - pose proof (split_colon_nonempty s) as Hn.
    destruct (split_colon s) as [|p ps]; [contradiction|].
    simpl in *. destruct ps; simpl in *; rewrite <- IH; reflexivity.
Qed.

Lemma split_colon_pieces (s : string) :
  Forall (fun piece => has_colon piece = false) (split_colon s).
Proof.
  induction s as [|c s IH]; simpl.
  - repeat constructor.
  - destruct (Ascii.eqb c ":") eqn:E.
    + constructor; [reflexivity | exact IH].
    + destruct (split_colon s) as [|p ps]; [repeat constructor; simpl; now rewrite E|].
      inversion IH as [|? ? Hp Hps]; subst.
      constructor; [simpl; rewrite E; exact Hp | exact Hps].
Qed.

Variable py_int : string -> option Z.

Lemma time_to_minutes_cases (s : string) :
  (exists h m, well_formed_time py_int s h m /\
               time_to_minutes py_int s = inr (60 * h + m)%Z) \/
  ((forall h m, ~ well_formed_time py_int s h m) /\
   time_to_minutes py_int s = inl MalformedTimeError).
Proof.
  unfold time_to_minutes, well_formed_time.
  destruct (split_colon s) as [|hs [|ms [|x rest]]] eqn:E; simpl.
  - right. split; [intros h m (? & ? & [=] & _) | reflexivity].
  - right. split; [intros h m (? & ? & [=] & _) | ].
    destruct (py_int hs); reflexivity.
  - destruct (py_int hs) as [h|] eqn:Eh.
    + destruct (py_int ms) as [m|] eqn:Em.
      * destruct ((0 <=? h)%Z && (h <? 24)%Z
                  && ((0 <=? m)%Z && (m <? 60)%Z)) eqn:R; simpl.
        -- left. exists h, m. split.
           ++ exists hs, ms. repeat split; try assumption; lia.
           ++ unfold ret. f_equal. lia.
        -- right. split; [|reflexivity].
           intros h' m' (hs' & ms' & [= <- <-] & Hh & Hm & Rh & Rm).
           rewrite Eh in Hh. rewrite Em in Hm.
           injection Hh as <-. injection Hm as <-. lia.
      * right. split; [|reflexivity].
        intros h' m' (hs' & ms' & [= <- <-] & _ & Hm & _). congruence.
    + right. split.
      * intros h' m' (hs' & ms' & [= <- <-] & Hh & _). congruence.
      * destruct (py_int ms); reflexivity.
  - right. split; [intros h m (? & ? & [=] & _) | ].
    destruct (py_int hs), (py_int ms), (py_int x); reflexivity.
Qed.

End TimeParsing.

Section TimeClaims.

(** C8.  [time_to_minutes] raises its [ValueError] exactly when the string
    does not split on the colon into exactly two pieces that [int] reads as
    [H] and [M] with [0 <= H < 24] and [0 <= M < 60]; otherwise it returns
    [60 * H + M]. *)
Theorem time_to_minutes_exact (py_int : string -> option Z) (s : string) :
  (time_to_minutes py_int s = inl MalformedTimeError <->
   ~ exists h m, well_formed_time py_int s h m) /\
  (forall h m, well_formed_time py_int s h m ->
               time_to_minutes py_int s = inr (60 * h + m)%Z) /\
  (forall e, time_to_minutes py_int s = inl e -> e = MalformedTimeError).
Proof.
  destruct (time_to_minutes_cases py_int s)
    as [(h & m & Hwf & E)|[Hno E]]; rewrite E.
  - split; [|split].
    + split; [discriminate|]. intros Hn. exfalso. apply Hn. eauto.
    + intros h' m' (hs' & ms' & Es' & Hh' & Hm' & _).
      destruct Hwf as (hs & ms & Es & Hh & Hm & _).
      rewrite Es in Es'. injection Es' as <- <-.
      rewrite Hh in Hh'. rewrite Hm in Hm'.
      injection Hh' as <-. injection Hm' as <-. reflexivity.
    + discriminate.
  - split; [|split].
    + split; [|reflexivity]. intros _ (h & m & Hwf). exact (Hno h m Hwf).
    + intros h m Hwf. destruct (Hno h m Hwf).
    + intros e [= <-]. reflexivity.
Qed.

Lemma time_to_minutes_exact_witness :
  time_to_minutes int_of_digits "16:01" = inr (60 * 16 + 1)%Z /\
  time_to_minutes int_of_digits "24:00" = inl MalformedTimeError.
Proof.
  split.
  - apply (proj1 (proj2 (time_to_minutes_exact int_of_digits "16:01"))).
    exists "16"%string, "01"%string. repeat split; try reflexivity; lia.
  - apply (proj2 (proj1 (time_to_minutes_exact int_of_digits "24:00"))).
    intros (h & m & hs & ms & Es & Hh & Hm & Rh & Rm).
    injection Es as <- <-. vm_compute in Hh. injection Hh as <-. lia.
Defined.

(** Strings that fail, each for its own reason. *)
Example time_to_minutes_malformed :
  time_to_minutes int_of_digits "1600" = inl MalformedTimeError /\
  time_to_minutes int_of_digits "16:00:00" = inl MalformedTimeError /\
  time_to_minutes int_of_digits "16:xx" = inl MalformedTimeError /\
  time_to_minutes int_of_digits "16:60" = inl MalformedTimeError /\
  time_to_minutes int_of_digits "" = inl MalformedTimeError.
Proof. repeat split; vm_compute; reflexivity. Qed.

Lemma check_time_overlap_parsed (py_int : string -> option Z)
    (start1 end1 start2 end2 : string) (a b c d : Z) :
  time_to_minutes py_int start1 = inr a ->
  time_to_minutes py_int end1 = inr b ->
  time_to_minutes py_int start2 = inr c ->
  time_to_minutes py_int end2 = inr d ->
  check_time_overlap py_int start1 end1 start2 end2
    = inr ((a <? d)%Z && (b >? c)%Z).
Proof.
  intros Ha Hb Hc Hd. unfold check_time_overlap.
  rewrite Ha, Hb, Hc, Hd. reflexivity.
Qed.

(** C7.  On time tokens that parse to the minutes [a], [b], [c] and [d],
    [check_time_overlap] returns true iff [a < d] and [b > c]; so blocks that
    only touch (one ends at the minute the other starts) never conflict.
    14:00-16:00 against 16:00-18:00 on the same day is no conflict, and
    14:00-16:01 against 16:00-18:00 is one. *)
Theorem overlaps_half_open (py_int : string -> option Z)
    (start1 end1 start2 end2 : string) (a b c d : Z) :
  (time_to_minutes py_int start1 = inr a ->
   time_to_minutes py_int end1 = inr b ->
   time_to_minutes py_int start2 = inr c ->
   time_to_minutes py_int end2 = inr d ->
   exists r,
     check_time_overlap py_int start1 end1 start2 end2 = inr r /\
     (r = true <-> overlaps a b c d) /\
     (b = c \/ d = a -> r = false)) /\
  check_time_overlap int_of_digits "14:00" "16:00" "16:00" "18:00" = inr false /\
  check_time_overlap int_of_digits "14:00" "16:01" "16:00" "18:00" = inr true /\
  has_schedule_conflict int_of_digits
    [mkScheduleItem 2 "14:00" "16:00" "A"] [mkScheduleItem 2 "16:00" "18:00" "B"]
    = inr (false, None) /\
  has_schedule_conflict int_of_digits
    [mkScheduleItem 2 "14:00" "16:01" "A"] [mkScheduleItem 2 "16:00" "18:00" "B"]
    = inr (true, Some {| conflict_day := 2; time1 := "14:00-16:01";
                         time2 := "16:00-18:00" |}).
Proof.
  split; [|repeat split; vm_compute; reflexivity].
  intros Ha Hb Hc Hd.
  exists ((a <? d)%Z && (b >? c)%Z). split; [|split].
  - apply check_time_overlap_parsed; assumption.
  - unfold overlaps. rewrite andb_true_iff, Z.ltb_lt, Z.gtb_ltb, Z.ltb_lt. lia.
  - intros Htouch. apply andb_false_iff.
    rewrite Z.ltb_ge, Z.gtb_ltb, Z.ltb_ge. lia.
Qed.

Lemma overlaps_half_open_witness :
  exists r,
    check_time_overlap int_of_digits "14:00" "16:00" "15:00" "17:00" = inr r /\
    (r = true <-> overlaps 840 960 900 1020) /\
    (960 = 900 \/ 1020 = 840 -> r = false)%Z.
Proof.
  apply (proj1 (overlaps_half_open int_of_digits
                  "14:00" "16:00" "15:00" "17:00" 840 960 900 1020));
    reflexivity.
Defined.

End TimeClaims.

Import Db.

Section StoreInvariant.

Implicit Types (db : Database) (codes : list string).



(** On a list without duplicates, removing the first occurrence removes the
    code altogether. *)
Lemma list_remove_gone (x : string) codes :
  NoDup codes -> x ∉ list_remove x codes.
Proof.
  induction 1 as [|z codes Hz Hnd IH]; simpl.
  - apply not_elem_of_nil.
  - destruct (decide (x = z)) as [->|Hne]; [exact Hz|].
    intros Hin. apply elem_of_cons in Hin as [->|Hin]; [congruence | auto].
Qed.













End StoreInvariant.

Section StoreOperations.

Implicit Types (db : Database) (codes : list string).





(** What [enroll_discipline] does to the store: it appends the code to the
    list of the semester when the semester has a list, the discipline exists
    and the code is not in the list, and nothing otherwise. *)
Lemma enroll_discipline_effect db (s c : string) :
  (fst (enroll_discipline db s c) = true /\
   exists codes, enrollments db !! s = Some codes /\ (c ∉ codes) /\
                 is_Some (disciplines db !! c) /\
                 snd (enroll_discipline db s c)
                 = {| disciplines := disciplines db;
                      semesters := semesters db;
                      enrollments := <[s := codes ++ [c]]> (enrollments db) |}) \/
  (fst (enroll_discipline db s c) = false /\
   snd (enroll_discipline db s c) = db /\
   ~ (exists codes, enrollments db !! s = Some codes /\ (c ∉ codes) /\
                    is_Some (disciplines db !! c))).
Proof.
  unfold enroll_discipline.
  destruct (enrollments db !! s) as [codes|] eqn:Es.
  - destruct (disciplines db !! c) as [d|] eqn:Ec.
    + destruct (decide (c ∈ codes)) as [Hin|Hout].
      * rewrite (bool_decide_eq_true_2 _ Hin). right. simpl.
        repeat split. intros (codes' & [= <-] & Hout & _). contradiction.
      * rewrite (bool_decide_eq_false_2 _ Hout). left. simpl.
        split; [reflexivity|]. exists codes. repeat split; eauto.
    + right. repeat split. intros (codes' & _ & _ & [d Hd]). discriminate.
  - right. repeat split. intros (codes' & [=] & _).
Qed.

End StoreOperations.

Section EnrollmentStore.

Variable py_int : string -> option Z.



End EnrollmentStore.

Section StoreClaim.



End StoreClaim.

Section CompletedMap.

Implicit Types (db : Database) (completed : gmap string Q).

Lemma has_passing_average_iff (disc : Discipline) :
  Enrollments.has_passing_average disc = true <->
  exists average, media_final disc = Some average /\ (7 <= average)%Q.
Proof.
  unfold Enrollments.has_passing_average.
  destruct (media_final disc) as [average|]; split.
  - intros H. apply andb_true_iff in H as [_ H].
    exists average. split; [reflexivity | apply Qle_bool_iff, H].
  - intros (a & [= <-] & Hle). apply andb_true_iff. split.
    + apply negb_true_iff. destruct (Qeq_bool average 0) eqn:E; [|reflexivity].
      apply Qeq_bool_eq in E. lra.
    + apply Qle_bool_iff, Hle.
  - discriminate.
  - intros (a & [=] & _).
Qed.

Lemma completed_fold_sound (discs : list Discipline) completed
    (c : string) (average : Q) :
  fold_left Enrollments.completed_step discs completed !! c = Some average ->
  completed !! c = Some average \/
  exists disc, disc ∈ discs /\ code disc = c /\
               media_final disc = Some average /\ (7 <= average)%Q.
Proof.
  revert completed. induction discs as [|d discs IH]; intros completed; simpl.
  - auto.
  - intros H. apply IH in H as [H|(disc & Hin & Hrest)].
    + unfold Enrollments.completed_step in H.
      destruct (Enrollments.has_passing_average d) eqn:Hp; [|auto].
      destruct (decide (code d = c)) as [Hc|Hc].
      * right. rewrite Hc, lookup_insert_eq in H.
        apply has_passing_average_iff in Hp as (a & Ha & Hle).
        rewrite Ha in H. simpl in H. injection H as <-.
        exists d. repeat split; [apply elem_of_cons; auto | assumption..].
      * rewrite lookup_insert_ne in H by exact Hc. auto.
    + right. exists disc. split; [apply elem_of_cons; auto | exact Hrest].
Qed.

Lemma completed_fold_keeps (discs : list Discipline) completed (c : string) :
  is_Some (completed !! c) ->
  is_Some (fold_left Enrollments.completed_step discs completed !! c).
Proof.
  revert completed. induction discs as [|d discs IH]; intros completed H; simpl.
  - exact H.
  - apply IH. unfold Enrollments.completed_step.
    destruct (Enrollments.has_passing_average d); [|exact H].
    apply lookup_insert_is_Some.
    destruct (decide (code d = c)); [left | right]; auto.
Qed.

Lemma completed_fold_complete (discs : list Discipline) completed
    (disc : Discipline) :
  disc ∈ discs -> Enrollments.has_passing_average disc = true ->
  is_Some (fold_left Enrollments.completed_step discs completed !! code disc).
Proof.
  revert completed. induction discs as [|d discs IH]; intros completed Hin Hp.
  - apply elem_of_nil in Hin. destruct Hin.
  - simpl. apply elem_of_cons in Hin as [<-|Hin].
    + apply completed_fold_keeps. unfold Enrollments.completed_step. rewrite Hp.
      rewrite lookup_insert_eq. eauto.
    + apply IH; assumption.
Qed.

Lemma get_all_disciplines_elem db (disc : Discipline) :
  disc ∈ get_all_disciplines db <->
  exists key, disciplines db !! key = Some disc.
Proof.
  unfold get_all_disciplines. rewrite list_elem_of_fmap. split.
  - intros ([key d] & -> & Hin). exists key.
    apply elem_of_map_to_list in Hin. exact Hin.
  - intros [key Hk]. exists (key, disc). split; [reflexivity|].
    apply elem_of_map_to_list. exact Hk.
Qed.

(** The codes that count as passed in the dict the route builds are those
    of the stored disciplines with a final average of at least 7.0, whatever
    the order in which the store lists them. *)
Lemma completed_disciplines_passed db (c : string) :
  passed (Enrollments.completed_disciplines db) c <-> Enrollments.stored_passed db c.
Proof.
  unfold Enrollments.completed_disciplines, Enrollments.stored_passed.
  split.
  - intros (average & Hl & Hle).
    apply completed_fold_sound in Hl as [Hl|(disc & Hin & Hc & Hm & _)].
    + rewrite lookup_empty in Hl. discriminate.
    + apply get_all_disciplines_elem in Hin as [key Hk].
      exists key, disc, average. auto.
  - intros (key & disc & average & Hk & Hc & Hm & Hle).
    assert (Hin : disc ∈ get_all_disciplines db)
      by (apply get_all_disciplines_elem; eauto).
    assert (Hp : Enrollments.has_passing_average disc = true)
      by (apply has_passing_average_iff; eauto).
    destruct (completed_fold_complete _ ∅ disc Hin Hp) as [a Ha].
    rewrite Hc in Ha. exists a. split; [exact Ha|].
    apply completed_fold_sound in Ha as [Ha|(d' & _ & _ & _ & Hle')].
    + rewrite lookup_empty in Ha. discriminate.
    + exact Hle'.
Qed.

End CompletedMap.

Section Workflow.

Variable py_int : string -> option Z.

Implicit Types (db : Database) (request : EnrollmentRequest).

(** The detector answers [(False, None)] or [(True, detail)]. *)
Lemma has_schedule_conflict_shape (schedules1 schedules2 : list ScheduleItem)
    (r : bool * option ConflictInfo) :
  has_schedule_conflict py_int schedules1 schedules2 = inr r ->
  r = (false, None) \/ exists info, r = (true, Some info).
Proof.
  induction schedules1 as [|sch1 rest IH]; simpl.
  - intros [= <-]. auto.
  - destruct (conflict_with_block py_int sch1 schedules2) as [e|[info|]]; simpl.
    + discriminate.
    + intros [= <-]. eauto.
    + exact IH.
Qed.

Lemma first_conflicting_none (target : Discipline) (enrolled : list Discipline) :
  Forall (Enrollments.no_conflict_with py_int target) enrolled ->
  Enrollments.first_conflicting py_int (schedules target) enrolled = inr None.
Proof.
  induction 1 as [|d enrolled Hd _ IH]; simpl; [reflexivity|].
  rewrite Hd. simpl. exact IH.
Qed.

Lemma first_conflicting_found (target d : Discipline)
    (before after : list Discipline) :
  Forall (Enrollments.no_conflict_with py_int target) before ->
  Enrollments.conflicts_with py_int target d ->
  Enrollments.first_conflicting py_int (schedules target) (before ++ d :: after)
  = inr (Some d).
Proof.
  intros Hbefore [info Hd].
  induction Hbefore as [|e before He _ IH]; simpl.
  - rewrite Hd. reflexivity.
  - rewrite He. simpl. exact IH.
Qed.

(** The route once both records are found and the prerequisites are known. *)
Lemma enroll_route_unmet db request (semester : Semester) (discipline : Discipline) :
  get_semester db (req_semester_code request) = Some semester ->
  get_discipline db (req_discipline_code request) = Some discipline ->
  missingPrerequisites (prerequisites discipline)
    (Enrollments.completed_disciplines db) <> [] ->
  Enrollments.enroll_discipline py_int db request
  = (inr (Enrollments.PrerequisitesNotMet
            (Enrollments.resolve_names db
               (missingPrerequisites (prerequisites discipline)
                  (Enrollments.completed_disciplines db)))), db).
Proof.
  intros Hs Hd Hmissing. unfold Enrollments.enroll_discipline.
  rewrite Hs, Hd, check_prerequisites_missing.
  unfold allSatisfied. rewrite (bool_decide_eq_false_2 _ Hmissing).
  reflexivity.
Qed.

Lemma enroll_route_met db request (semester : Semester) (discipline : Discipline) :
  get_semester db (req_semester_code request) = Some semester ->
  get_discipline db (req_discipline_code request) = Some discipline ->
  missingPrerequisites (prerequisites discipline)
    (Enrollments.completed_disciplines db) = [] ->
  Enrollments.enroll_discipline py_int db request
  = match Enrollments.first_conflicting py_int (schedules discipline)
            (get_enrolled_disciplines db (req_semester_code request)) with
    | inl e => (inl (Uncaught e), db)
    | inr (Some enrolled_disc) =>
        (inr (Enrollments.ScheduleConflict (name enrolled_disc)), db)
    | inr None =>
        let '(enrolled, db') :=
          Db.enroll_discipline db (req_semester_code request)
                                  (req_discipline_code request) in
        (inr (if enrolled then Enrollments.EnrolledSuccessfully
              else Enrollments.AlreadyEnrolled), db')
    end.
Proof.
  intros Hs Hd Hmissing. unfold Enrollments.enroll_discipline.
  rewrite Hs, Hd, check_prerequisites_missing.
  unfold allSatisfied. rewrite (bool_decide_eq_true_2 _ Hmissing).
  cbv beta iota. simpl negb. cbv iota.
  destruct (Enrollments.first_conflicting _ _ _) as [e|[d|]]; try reflexivity.
  destruct (Db.enroll_discipline db _ _) as [[|] db']; reflexivity.
Qed.

End Workflow.

Section WorkflowClaims.

Import DefaultData.

(** C3.  When the semester and the discipline both exist, the route decides
    on the prerequisites first.  The completed map counts a code as passed
    exactly when a stored discipline with that code has a final average of
    at least 7.0.  If some prerequisite is missing the outcome is
    [PrerequisitesNotMet] with the names of the missing codes that the store
    resolves, the others being dropped, and the store is untouched.
    Otherwise the enrolled disciplines are scanned in the order of the
    enrollment list, and the first one that the detector reports as
    conflicting gives [ScheduleConflict] with its name. *)
Theorem enroll_prerequisites_before_conflicts (py_int : string -> option Z)
    (db : Database) (request : EnrollmentRequest)
    (semester : Semester) (discipline : Discipline) :
  get_semester db (req_semester_code request) = Some semester ->
  get_discipline db (req_discipline_code request) = Some discipline ->
  let completed := Enrollments.completed_disciplines db in
  let missing := missingPrerequisites (prerequisites discipline) completed in
  (forall c, passed completed c <-> Enrollments.stored_passed db c) /\
  (forall codes,
     enrollments db !! req_semester_code request = Some codes ->
     get_enrolled_disciplines db (req_semester_code request)
     = omap (fun c => disciplines db !! c) codes) /\
  (missing <> [] ->
     Enrollments.enroll_discipline py_int db request
     = (inr (Enrollments.PrerequisitesNotMet
               (Enrollments.resolve_names db missing)), db)) /\
  (missing = [] ->
     forall before enrolled_disc after,
       get_enrolled_disciplines db (req_semester_code request)
         = before ++ enrolled_disc :: after ->
       Forall (Enrollments.no_conflict_with py_int discipline) before ->
       Enrollments.conflicts_with py_int discipline enrolled_disc ->
       Enrollments.enroll_discipline py_int db request
       = (inr (Enrollments.ScheduleConflict (name enrolled_disc)), db)).
Proof.
  intros Hs Hd completed missing. split; [|split; [|split]].
  - apply completed_disciplines_passed.
  - intros codes Hcodes. unfold get_enrolled_disciplines.
    rewrite Hcodes. reflexivity.
  - apply (enroll_route_unmet py_int db request semester discipline Hs Hd).
  - intros Hmet before enrolled_disc after Hlist Hbefore Hconflict.
    rewrite (enroll_route_met py_int db request semester discipline Hs Hd Hmet).
    rewrite Hlist.
    rewrite (first_conflicting_found py_int _ _ _ _ Hbefore Hconflict).
    reflexivity.
Qed.

Lemma enroll_prerequisites_before_conflicts_witness :
  Enrollments.enroll_discipline int_of_digits default_db
    (mkEnrollmentRequest "2024.1" "06214")
  = (inr (Enrollments.PrerequisitesNotMet
            (Enrollments.resolve_names default_db
               (missingPrerequisites (prerequisites algoritmos)
                  (Enrollments.completed_disciplines default_db)))),
     default_db) /\
  Enrollments.enroll_discipline int_of_digits (with_enrolled ["06214"])
    (mkEnrollmentRequest "2024.1" "14117")
  = (inr (Enrollments.ScheduleConflict (name algoritmos)),
     with_enrolled ["06214"]).
Proof.
  split.
  - apply (proj1 (proj2 (proj2 (enroll_prerequisites_before_conflicts int_of_digits
             default_db (mkEnrollmentRequest "2024.1" "06214")
             {| semester_code := "2024.1"; status := ATIVO |} algoritmos
             ltac:(vm_compute; reflexivity) ltac:(vm_compute; reflexivity))))).
    vm_compute. discriminate.
  - apply (proj2 (proj2 (proj2 (enroll_prerequisites_before_conflicts int_of_digits
             (with_enrolled ["06214"]) (mkEnrollmentRequest "2024.1" "14117")
             {| semester_code := "2024.1"; status := ATIVO |}
             introducao_programacao
             ltac:(vm_compute; reflexivity) ltac:(vm_compute; reflexivity))))
           ltac:(vm_compute; reflexivity) [] algoritmos []).
    + vm_compute. reflexivity.
    + constructor.
    + eexists. vm_compute. reflexivity.
Defined.

(** The two end-to-end scenarios of the specification, evaluated. *)
Example enroll_scenarios :
  fst (Enrollments.enroll_discipline int_of_digits default_db
         (mkEnrollmentRequest "2024.1" "06214"))
  = inr (Enrollments.PrerequisitesNotMet ["INTRODUÇÃO À PROGRAMAÇÃO I"]) /\
  fst (Enrollments.enroll_discipline int_of_digits (with_enrolled ["06214"])
         (mkEnrollmentRequest "2024.1" "14117"))
  = inr (Enrollments.ScheduleConflict "ALGORITMOS") /\
  fst (Enrollments.enroll_discipline int_of_digits default_db
         (mkEnrollmentRequest "2024.1" "14117"))
  = inr Enrollments.EnrolledSuccessfully.
Proof. repeat split; vm_compute; reflexivity. Qed.

End WorkflowClaims.

Section ReEnrollment.

Import DefaultData.





End ReEnrollment.

Import CourseAverages.

Section RoundingOrder.

Lemma round_half_even_between (q : Q) :
  (Qfloor q <= round_half_even q <= Qfloor q + 1)%Z.
Proof.
  unfold round_half_even.
  destruct (q - inject_Z (Qfloor q) ?= 1 # 2)%Q; [destruct (Z.even _)| |]; lia.
Qed.

Lemma round_half_even_mono (x y : Q) :
  (x <= y)%Q -> (round_half_even x <= round_half_even y)%Z.
Proof.
  intros Hxy. pose proof (Qfloor_resp_le _ _ Hxy) as Hfl.
  pose proof (round_half_even_between x) as Bx.
  pose proof (round_half_even_between y) as By.
  destruct (Z.eq_dec (Qfloor x) (Qfloor y)) as [E|NE]; [|lia].
  unfold round_half_even in *. rewrite E in *.
  destruct (Qcompare_spec (x - inject_Z (Qfloor y)) (1 # 2)) as [Hx|Hx|Hx];
  destruct (Qcompare_spec (y - inject_Z (Qfloor y)) (1 # 2)) as [Hy|Hy|Hy];
    try lia; try lra; destruct (Z.even (Qfloor y)); lia.
Qed.

Lemma round2_mono (x y : Q) : (x <= y)%Q -> (round2 x <= round2 y)%Q.
Proof.
  intros Hxy. unfold round2, Qle. simpl.
  apply Z.mul_le_mono_nonneg_r; [lia|].
  apply round_half_even_mono. lra.
Qed.

Lemma round2_inject (z : Z) : (round2 (inject_Z z) == inject_Z z)%Q.
Proof.
  unfold round2.
  rewrite (round_half_even_compat (inject_Z z * 100) (inject_Z (z * 100))).
  - rewrite round_half_even_inject. unfold Qeq, inject_Z. simpl. lia.
  - rewrite inject_Z_mult. reflexivity.
Qed.

Lemma round2_within (lo hi : Z) (x : Q) :
  (inject_Z lo <= x <= inject_Z hi)%Q ->
  (inject_Z lo <= round2 x <= inject_Z hi)%Q.
Proof.
  intros [Hlo Hhi]. split.
  - rewrite <- (round2_inject lo). apply round2_mono, Hlo.
  - rewrite <- (round2_inject hi). apply round2_mono, Hhi.
Qed.

End RoundingOrder.

Section ProgressBounds.

Lemma percentage_mono (a b t : Z) :
  (0 < t)%Z -> (a <= b)%Z ->
  (inject_Z a / inject_Z t * 100 <= inject_Z b / inject_Z t * 100)%Q.
Proof.
  intros Ht Hab.
  apply Qmult_le_compat_r; [|lra].
  unfold Qdiv. apply Qmult_le_compat_r.
  - rewrite <- Zle_Qle. exact Hab.
  - apply Qinv_le_0_compat. change 0%Q with (inject_Z 0).
    rewrite <- Zle_Qle. lia.
Qed.

Lemma percentage_full (t : Z) :
  (0 < t)%Z -> (inject_Z t / inject_Z t * 100 == 100)%Q.
Proof.
  intros Ht. assert (Hne : ~ (inject_Z t == 0)%Q).
  { change 0%Q with (inject_Z 0). rewrite inject_Z_injective. lia. }
  field. exact Hne.
Qed.

Lemma calculate_course_progress_value (completed total : Z) :
  (0 < total)%Z ->
  calculate_course_progress completed total
  = inr (round2 (inject_Z (clamp_hours completed total) / inject_Z total * 100)).
Proof.
  intros Ht. unfold calculate_course_progress.
  destruct (Z.leb_spec total 0) as [Hle|_]; [lia|].
  pose proof (clamp_hours_code completed total Ht) as Hc. cbv zeta in Hc.
  rewrite Hc. reflexivity.
Qed.


(** X1.  For a positive total, [calculate_course_progress] returns a
    percentage within [[0, 100]] that does not decrease when the completed
    hours grow; it is 0 for no or negative hours and 100 once the total is
    reached. *)
Theorem course_progress_bounds (completed completed' total : Z) :
  (0 < total)%Z ->
  exists r r',
    calculate_course_progress completed total = inr r /\
    calculate_course_progress completed' total = inr r' /\
    (0 <= r <= 100)%Q /\
    ((completed <= completed')%Z -> (r <= r')%Q) /\
    ((completed <= 0)%Z -> (r == 0)%Q) /\
    ((total <= completed)%Z -> (r == 100)%Q).
Proof.
  intros Ht.
  rewrite !calculate_course_progress_value by exact Ht.
  eexists. eexists. split; [reflexivity|]. split; [reflexivity|].
  assert (Hzero : (inject_Z 0 / inject_Z total * 100 == 0)%Q).
  { unfold Qdiv. change (inject_Z 0) with 0%Q. ring. }
  split; [|split; [|split]].
  - apply (round2_within 0 100). split.
    + eapply Qle_trans; [|apply (percentage_mono 0); [exact Ht|]].
      * rewrite Hzero. apply Qle_refl.
      * unfold clamp_hours. lia.
    + eapply Qle_trans; [apply (percentage_mono _ total); [exact Ht|]|].
      * unfold clamp_hours. lia.
      * rewrite (percentage_full total Ht). apply Qle_refl.
  - intros Hle. apply round2_mono, percentage_mono; [exact Ht|].
    unfold clamp_hours. lia.
  - intros Hle. replace (clamp_hours completed total) with 0%Z
      by (unfold clamp_hours; lia).
    rewrite (round2_compat _ _ Hzero). reflexivity.
  - intros Hle. replace (clamp_hours completed total) with total
      by (unfold clamp_hours; lia).
    rewrite (round2_compat _ _ (percentage_full total Ht)). reflexivity.
Qed.

End ProgressBounds.

Section Averages.

Lemma fold_Qplus_shift (values : list Q) (a : Q) :
  (fold_left Qplus values a == a + fold_left Qplus values 0)%Q.
Proof.
  revert a. induction values as [|x values IH]; intros a; simpl.
  - ring.
  - rewrite (IH (a + x)%Q), (IH (0 + x)%Q). ring.
Qed.

Lemma py_sum_cons (x : Q) (values : list Q) :
  (py_sum (x :: values) == x + py_sum values)%Q.
Proof.
  unfold py_sum. simpl. rewrite fold_Qplus_shift. ring.
Qed.






End Averages.

Section WeightedCR.




End WeightedCR.

Section AverageWitnesses.

Lemma course_progress_bounds_witness :
  exists r r',
    calculate_course_progress 30 120 = inr r /\
    calculate_course_progress 60 120 = inr r' /\
    (0 <= r <= 100)%Q /\
    ((30 <= 60)%Z -> (r <= r')%Q) /\
    ((30 <= 0)%Z -> (r == 0)%Q) /\
    ((120 <= 30)%Z -> (r == 100)%Q).
Proof. apply (course_progress_bounds 30 60 120). lia. Defined.



End AverageWitnesses.

Section ConflictDetector.

Variable py_int : string -> option Z.

Implicit Types (sch : ScheduleItem) (l : list ScheduleItem).

Lemma overlaps_sym (a b c d : Z) : overlaps a b c d <-> overlaps c d a b.
Proof. unfold overlaps. lia. Qed.

Lemma overlaps_dec (a b c d : Z) :
  ((a <? d)%Z && (b >? c)%Z = true <-> overlaps a b c d).
Proof.
  unfold overlaps. rewrite andb_true_iff, Z.ltb_lt, Z.gtb_ltb, Z.ltb_lt. lia.
Qed.

(** What one turn of the inner loop does with a pair. *)
Lemma pair_clash sch1 sch2 :
  Blocks.clash py_int sch1 sch2 ->
  (day sch1 =? day sch2)%Z = true /\
  check_time_overlap py_int (start sch1) (end_ sch1) (start sch2) (end_ sch2)
  = inr true.
Proof.
  intros [Hday (a & b & c & d & [Ha Hb] & [Hc Hd] & Hov)].
  split; [apply Z.eqb_eq, Hday|].
  rewrite (check_time_overlap_parsed py_int _ _ _ _ a b c d Ha Hb Hc Hd).
  f_equal. apply overlaps_dec, Hov.
Qed.

Lemma pair_apart sch1 sch2 :
  Blocks.apart py_int sch1 sch2 ->
  (day sch1 =? day sch2)%Z = false \/
  check_time_overlap py_int (start sch1) (end_ sch1) (start sch2) (end_ sch2)
  = inr false.
Proof.
  intros [Hday|(a & b & c & d & [Ha Hb] & [Hc Hd] & Hno)].
  - left. apply Z.eqb_neq, Hday.
  - right.
    rewrite (check_time_overlap_parsed py_int _ _ _ _ a b c d Ha Hb Hc Hd).
    f_equal. destruct ((a <? d)%Z && (b >? c)%Z) eqn:E; [|reflexivity].
    apply overlaps_dec in E. contradiction.
Qed.

Lemma conflict_with_block_apart sch1 l2 :
  Forall (Blocks.apart py_int sch1) l2 ->
  conflict_with_block py_int sch1 l2 = inr None.
Proof.
  induction 1 as [|sch2 l2 H2 _ IH]; simpl; [reflexivity|].
  destruct (pair_apart _ _ H2) as [-> | Hc]; [exact IH|].
  rewrite Hc. simpl. destruct (day sch1 =? day sch2)%Z; exact IH.
Qed.

Lemma conflict_with_block_first sch1 sch2 (before after : list ScheduleItem) :
  Forall (Blocks.apart py_int sch1) before ->
  Blocks.clash py_int sch1 sch2 ->
  conflict_with_block py_int sch1 (before ++ sch2 :: after)
  = inr (Some (Blocks.detail sch1 sch2)).
Proof.
  intros Hbefore Hclash.
  induction Hbefore as [|x before Hx _ IH]; simpl.
  - destruct (pair_clash _ _ Hclash) as [-> ->]. reflexivity.
  - destruct (pair_apart _ _ Hx) as [-> | Hc]; [exact IH|].
    rewrite Hc. simpl. destruct (day sch1 =? day x)%Z; exact IH.
Qed.

Lemma has_schedule_conflict_apart l1 l2 :
  Forall (fun sch1 => Forall (Blocks.apart py_int sch1) l2) l1 ->
  has_schedule_conflict py_int l1 l2 = inr (false, None).
Proof.
  induction 1 as [|sch1 l1 H1 _ IH]; simpl; [reflexivity|].
  rewrite (conflict_with_block_apart _ _ H1). simpl. exact IH.
Qed.

Lemma has_schedule_conflict_first sch1 sch2
    (before1 after1 before2 after2 : list ScheduleItem) :
  Forall (fun sch => Forall (Blocks.apart py_int sch)
                            (before2 ++ sch2 :: after2)) before1 ->
  Forall (Blocks.apart py_int sch1) before2 ->
  Blocks.clash py_int sch1 sch2 ->
  has_schedule_conflict py_int (before1 ++ sch1 :: after1)
                               (before2 ++ sch2 :: after2)
  = inr (true, Some (Blocks.detail sch1 sch2)).
Proof.
  intros H1 H2 Hclash.
  induction H1 as [|x before1 Hx _ IH]; simpl.
  - rewrite (conflict_with_block_first _ _ _ _ H2 Hclash). reflexivity.
  - rewrite (conflict_with_block_apart _ _ Hx). simpl. exact IH.
Qed.

(** A pair of blocks that convert either clashes or is apart. *)
Lemma clash_or_apart sch1 sch2 :
  Blocks.parses py_int sch1 -> Blocks.parses py_int sch2 ->
  {Blocks.clash py_int sch1 sch2} + {Blocks.apart py_int sch1 sch2}.
Proof.
  intros P1 P2.
  destruct (Z.eq_dec (day sch1) (day sch2)) as [Hd|Hd];
    [|right; left; exact Hd].
  destruct (time_to_minutes py_int (start sch1)) as [|a] eqn:Ea;
    [exfalso; destruct P1 as (? & ? & [E _]); congruence|].
  destruct (time_to_minutes py_int (end_ sch1)) as [|b] eqn:Eb;
    [exfalso; destruct P1 as (? & ? & [_ E]); congruence|].
  destruct (time_to_minutes py_int (start sch2)) as [|c] eqn:Ec;
    [exfalso; destruct P2 as (? & ? & [E _]); congruence|].
  destruct (time_to_minutes py_int (end_ sch2)) as [|d] eqn:Ed;
    [exfalso; destruct P2 as (? & ? & [_ E]); congruence|].
  destruct ((a <? d)%Z && (b >? c)%Z) eqn:E.
  - left. split; [exact Hd|]. exists a, b, c, d.
    repeat split; try assumption; apply overlaps_dec in E; apply E.
  - right. right. exists a, b, c, d. repeat split; try assumption.
    intros Hov. apply overlaps_dec in Hov. congruence.
Qed.

Lemma clash_not_apart sch1 sch2 :
  Blocks.clash py_int sch1 sch2 -> ~ Blocks.apart py_int sch1 sch2.
Proof.
  intros [Hd (a & b & c & d & [Ha Hb] & [Hc Hd'] & Hov)]
         [Hne|(a' & b' & c' & d' & [Ha' Hb'] & [Hc' Hd''] & Hno)].
  - contradiction.
  - rewrite Ha in Ha'. rewrite Hb in Hb'. rewrite Hc in Hc'. rewrite Hd' in Hd''.
    injection Ha' as <-. injection Hb' as <-.
    injection Hc' as <-. injection Hd'' as <-. contradiction.
Qed.

Lemma clash_sym sch1 sch2 :
  Blocks.clash py_int sch1 sch2 -> Blocks.clash py_int sch2 sch1.
Proof.
  intros [Hd (a & b & c & d & H1 & H2 & Hov)].
  split; [symmetry; exact Hd|]. exists c, d, a, b.
  repeat split; try apply H1; try apply H2; apply overlaps_sym in Hov; apply Hov.
Qed.

End ConflictDetector.

Section ConflictTheorems.

Variable py_int : string -> option Z.

Implicit Types (sch : ScheduleItem) (l : list ScheduleItem).

Lemma conflict_with_block_parsed sch1 l2 :
  Blocks.parses py_int sch1 -> Forall (Blocks.parses py_int) l2 ->
  (exists sch2, sch2 ∈ l2 /\ Blocks.clash py_int sch1 sch2 /\
                exists info, conflict_with_block py_int sch1 l2 = inr (Some info)) \/
  (Forall (Blocks.apart py_int sch1) l2 /\
   conflict_with_block py_int sch1 l2 = inr None).
Proof.
  intros P1 P2. induction P2 as [|sch2 l2 H2 _ IH].
  - right. split; [constructor | reflexivity].
  - destruct (clash_or_apart py_int sch1 sch2 P1 H2) as [Hc|Ha].
    + left. exists sch2. split; [apply elem_of_cons; auto|]. split; [exact Hc|].
      exists (Blocks.detail sch1 sch2).
      apply (conflict_with_block_first py_int sch1 sch2 [] l2);
        [constructor | exact Hc].
    + destruct IH as [(x & Hin & Hc & info & E)|[Hall E]].
      * left. exists x. split; [apply elem_of_cons; auto|]. split; [exact Hc|].
        exists info. simpl.
        destruct (pair_apart py_int _ _ Ha) as [-> | Hov]; [exact E|].
        rewrite Hov. simpl. destruct (day sch1 =? day sch2)%Z; exact E.
      * right. split; [constructor; assumption|].
        apply conflict_with_block_apart. constructor; assumption.
Qed.

Lemma has_schedule_conflict_parsed l1 l2 :
  Forall (Blocks.parses py_int) l1 -> Forall (Blocks.parses py_int) l2 ->
  (exists sch1 sch2, sch1 ∈ l1 /\ sch2 ∈ l2 /\ Blocks.clash py_int sch1 sch2 /\
     exists info, has_schedule_conflict py_int l1 l2 = inr (true, Some info)) \/
  (Forall (fun sch1 => Forall (Blocks.apart py_int sch1) l2) l1 /\
   has_schedule_conflict py_int l1 l2 = inr (false, None)).
Proof.
  intros P1 P2. induction P1 as [|sch1 l1 H1 _ IH].
  - right. split; [constructor | reflexivity].
  - destruct (conflict_with_block_parsed sch1 l2 H1 P2)
      as [(sch2 & Hin & Hc & info & E)|[Hall E]].
    + left. exists sch1, sch2. split; [apply elem_of_cons; auto|].
      split; [exact Hin|]. split; [exact Hc|].
      exists info. simpl. rewrite E. reflexivity.
    + destruct IH as [(x & y & Hx & Hy & Hc & info & E')|[Hall' E']].
      * left. exists x, y. split; [apply elem_of_cons; auto|].
        split; [exact Hy|]. split; [exact Hc|].
        exists info. simpl. rewrite E. simpl. exact E'.
      * right. split; [constructor; assumption|].
        simpl. rewrite E. simpl. exact E'.
Qed.

Lemma apart_everywhere_no_clash l1 l2 sch1 sch2 :
  Forall (fun sch1 => Forall (Blocks.apart py_int sch1) l2) l1 ->
  sch1 ∈ l1 -> sch2 ∈ l2 -> ~ Blocks.clash py_int sch1 sch2.
Proof.
  intros Hall H1 H2 Hc.
  rewrite Forall_forall in Hall. specialize (Hall sch1 H1).
  rewrite Forall_forall in Hall. specialize (Hall sch2 H2).
  exact (clash_not_apart py_int _ _ Hc Hall).
Qed.

(** X4.  [has_schedule_conflict] answers [(False, None)] when every pair of
    blocks is apart, and in particular, without reading a single time token,
    when no two blocks share a day.  Otherwise it answers with the first
    clashing pair, the blocks of the first list taken in order and, for each,
    those of the second list in order: every pair before it is apart, and
    the detail names the day and both time ranges of that pair. *)
Theorem schedule_conflict_first_pair l1 l2 :
  (Forall (fun sch1 => Forall (Blocks.apart py_int sch1) l2) l1 ->
     has_schedule_conflict py_int l1 l2 = inr (false, None)) /\
  ((forall sch1 sch2, sch1 ∈ l1 -> sch2 ∈ l2 -> day sch1 <> day sch2) ->
     has_schedule_conflict py_int l1 l2 = inr (false, None)) /\
  (forall sch1 sch2 before1 after1 before2 after2,
     l1 = before1 ++ sch1 :: after1 ->
     l2 = before2 ++ sch2 :: after2 ->
     Forall (fun sch => Forall (Blocks.apart py_int sch) l2) before1 ->
     Forall (Blocks.apart py_int sch1) before2 ->
     Blocks.clash py_int sch1 sch2 ->
     has_schedule_conflict py_int l1 l2
     = inr (true, Some (Blocks.detail sch1 sch2))).
Proof.
  split; [|split].
  - apply has_schedule_conflict_apart.
  - intros Hdays. apply has_schedule_conflict_apart.
    apply Forall_forall. intros sch1 H1.
    apply Forall_forall. intros sch2 H2. left. exact (Hdays sch1 sch2 H1 H2).
  - intros sch1 sch2 before1 after1 before2 after2 -> -> Hb1 Hb2 Hc.
    apply has_schedule_conflict_first; assumption.
Qed.

(** X5.  When every time token of both lists converts,
    [has_schedule_conflict] does not raise, reports a conflict exactly when
    some block of the first list clashes with some block of the second, gives
    a detail exactly when it reports one, and reports the same with the two
    lists exchanged. *)
Theorem schedule_conflict_iff_clash l1 l2 :
  Forall (Blocks.parses py_int) l1 -> Forall (Blocks.parses py_int) l2 ->
  exists r r',
    has_schedule_conflict py_int l1 l2 = inr r /\
    has_schedule_conflict py_int l2 l1 = inr r' /\
    (fst r = true <->
     exists sch1 sch2, sch1 ∈ l1 /\ sch2 ∈ l2 /\ Blocks.clash py_int sch1 sch2) /\
    (fst r = false <-> snd r = None) /\
    fst r' = fst r.
Proof.
  intros P1 P2.
  destruct (has_schedule_conflict_parsed l1 l2 P1 P2)
    as [(s1 & s2 & H1 & H2 & Hc & info & E)|[Hall E]];
  destruct (has_schedule_conflict_parsed l2 l1 P2 P1)
    as [(t2 & t1 & G2 & G1 & Gc & info' & E')|[Hall' E']];
  rewrite E, E'; eexists; eexists;
    (split; [reflexivity|]); (split; [reflexivity|]); simpl.
  - split; [|split; [split; discriminate | reflexivity]].
    split; [intros _; eauto | reflexivity].
  - exfalso. apply clash_sym in Hc.
    exact (apart_everywhere_no_clash l2 l1 s2 s1 Hall' H2 H1 Hc).
  - exfalso. apply clash_sym in Gc.
    exact (apart_everywhere_no_clash l1 l2 t1 t2 Hall G1 G2 Gc).
  - split; [|split; [split; reflexivity | reflexivity]].
    split; [discriminate|].
    intros (s1 & s2 & H1 & H2 & Hc). exfalso.
    exact (apart_everywhere_no_clash l1 l2 s1 s2 Hall H1 H2 Hc).
Qed.

(** X6.  A schedule whose tokens all convert and that holds a block
    starting before it ends conflicts with itself. *)
Theorem schedule_conflict_with_itself l sch (a b : Z) :
  Forall (Blocks.parses py_int) l ->
  sch ∈ l -> Blocks.block_minutes py_int sch a b -> (a < b)%Z ->
  exists info, has_schedule_conflict py_int l l = inr (true, Some info).
Proof.
  intros P Hin Hm Hab.
  destruct (has_schedule_conflict_parsed l l P P)
    as [(s1 & s2 & _ & _ & _ & info & E)|[Hall _]]; [eauto|].
  exfalso. apply (apart_everywhere_no_clash l l sch sch Hall Hin Hin).
  split; [reflexivity|]. exists a, b, a, b.
  repeat split; try apply Hm; unfold overlaps; lia.
Qed.

End ConflictTheorems.

Section ConflictWitnesses.

Import DefaultData.

Lemma schedule_conflict_first_pair_witness :
  has_schedule_conflict int_of_digits
    (schedules introducao_programacao) (schedules algoritmos)
  = inr (true, Some (Blocks.detail (block 4 "16:00" "18:00")
                                   (block 4 "16:00" "18:00"))).
Proof.
  apply (proj2 (proj2 (schedule_conflict_first_pair int_of_digits
           (schedules introducao_programacao) (schedules algoritmos)))
         (block 4 "16:00" "18:00") (block 4 "16:00" "18:00")
         [block 1 "14:00" "16:00"] [] [block 2 "14:00" "16:00"] []
         eq_refl eq_refl).
  - apply List.Forall_cons; [|apply List.Forall_nil].
    apply List.Forall_cons; [left; discriminate|].
    apply List.Forall_cons; [left; discriminate | apply List.Forall_nil].
  - apply List.Forall_cons; [left; discriminate | apply List.Forall_nil].
  - split; [reflexivity|]. exists 960%Z, 1080%Z, 960%Z, 1080%Z.
    repeat split; try reflexivity; lia.
Defined.

Lemma schedule_conflict_iff_clash_witness :
  exists r r',
    has_schedule_conflict int_of_digits
      (schedules introducao_programacao) (schedules algoritmos) = inr r /\
    has_schedule_conflict int_of_digits
      (schedules algoritmos) (schedules introducao_programacao) = inr r' /\
    (fst r = true <->
     exists sch1 sch2,
       sch1 ∈ schedules introducao_programacao /\
       sch2 ∈ schedules algoritmos /\
       Blocks.clash int_of_digits sch1 sch2) /\
    (fst r = false <-> snd r = None) /\
    fst r' = fst r.
Proof.
  apply (schedule_conflict_iff_clash int_of_digits).
  - apply List.Forall_cons; [|apply List.Forall_cons; [|apply List.Forall_nil]].
    + exists 840%Z, 960%Z. split; reflexivity.
    + exists 960%Z, 1080%Z. split; reflexivity.
  - apply List.Forall_cons; [|apply List.Forall_cons; [|apply List.Forall_nil]].
    + exists 840%Z, 960%Z. split; reflexivity.
    + exists 960%Z, 1080%Z. split; reflexivity.
Defined.

Lemma schedule_conflict_with_itself_witness :
  exists info,
    has_schedule_conflict int_of_digits
      (schedules introducao_programacao) (schedules introducao_programacao)
    = inr (true, Some info).
Proof.
  apply (schedule_conflict_with_itself int_of_digits
           (schedules introducao_programacao) (block 1 "14:00" "16:00")
           840 960).
  - apply List.Forall_cons; [|apply List.Forall_cons; [|apply List.Forall_nil]].
    + exists 840%Z, 960%Z. split; reflexivity.
    + exists 960%Z, 1080%Z. split; reflexivity.
  - apply elem_of_cons. left. reflexivity.
  - split; reflexivity.
  - lia.
Defined.

End ConflictWitnesses.

Import Statistics.

Section StoreKeys.

Implicit Types (db : Database).

Lemma keys_are_codes_insert db (key : string) (disc : Discipline) :
  code disc = key -> keys_are_codes db ->
  map_Forall (fun k d => code d = k) (<[key := disc]> (disciplines db)).
Proof.
  intros Hc Hk. apply map_Forall_insert_2; assumption.
Qed.

Lemma run_op_keys db (op : store_op) :
  keys_are_codes db -> keys_are_codes (run_op op db).
Proof.
  intros Hk.
  destruct op as [d0|c u|c|discs|sem|c st|s c|s c|c g1 g2 g3];
    unfold run_op, keys_are_codes.
  - simpl. apply keys_are_codes_insert; [reflexivity | exact Hk].
  - unfold update_discipline.
    destruct (disciplines db !! c) as [d|] eqn:E; [|exact Hk].
    simpl. apply keys_are_codes_insert; [|exact Hk]. exact (Hk _ _ E).
  - unfold delete_discipline.
    destruct (disciplines db !! c) as [d|] eqn:E; [|exact Hk].
    simpl. apply map_Forall_delete. exact Hk.
  - unfold bulk_create_disciplines. generalize O as count.
    revert db Hk. induction discs as [|d discs IH]; intros db Hk count; simpl.
    + exact Hk.
    + destruct (disciplines db !! new_code d); [apply IH, Hk|].
      apply IH. apply keys_are_codes_insert; [reflexivity | exact Hk].
  - exact Hk.
  - unfold update_semester. destruct (semesters db !! c); exact Hk.
  - unfold enroll_discipline.
    destruct (enrollments db !! s); [|exact Hk].
    destruct (disciplines db !! c); [|exact Hk].
    destruct (negb _); exact Hk.
  - unfold unenroll_discipline.
    destruct (enrollments db !! s); [|exact Hk].
    destruct (bool_decide _); exact Hk.
  - unfold set_grades.
    destruct (disciplines db !! c) as [d|] eqn:E; [|exact Hk].
    simpl. apply keys_are_codes_insert; [|exact Hk]. exact (Hk _ _ E).
Qed.

Lemma run_op_semesters db (op : store_op) :
  semesters_have_lists db -> semesters_have_lists (run_op op db).
Proof.
  intros Hs.
  destruct op as [d0|c u|c|discs|sem|c st|s c|s c|c g1 g2 g3];
    unfold run_op.
  - exact Hs.
  - unfold update_discipline. destruct (disciplines db !! c); exact Hs.
  - unfold delete_discipline. destruct (disciplines db !! c); [|exact Hs].
    intros s0 Hsem. simpl in *. rewrite lookup_fmap.
    destruct (Hs s0 Hsem) as [codes ->]. simpl. eauto.
  - unfold bulk_create_disciplines. generalize O as count.
    revert db Hs. induction discs as [|d discs IH]; intros db Hs count; simpl.
    + exact Hs.
    + destruct (disciplines db !! new_code d); apply IH; exact Hs.
  - intros s0 Hsem. simpl in *.
    apply lookup_insert_is_Some. apply lookup_insert_is_Some in Hsem.
    destruct Hsem as [->|[Hne Hsem]]; [left; reflexivity|].
    right. split; [exact Hne | apply Hs, Hsem].
  - unfold update_semester.
    destruct (semesters db !! c) as [sem|] eqn:E; [|exact Hs].
    intros s0 Hsem. simpl in *. apply Hs.
    apply lookup_insert_is_Some in Hsem.
    destruct Hsem as [<-|[_ Hsem]]; [rewrite E; eauto | exact Hsem].
  - unfold enroll_discipline.
    destruct (enrollments db !! s) as [codes|] eqn:E; [|exact Hs].
    destruct (disciplines db !! c); [|exact Hs].
    destruct (negb _); [|exact Hs].
    intros s0 Hsem. simpl in *. apply lookup_insert_is_Some.
    destruct (decide (s = s0)); [left | right]; auto.
  - unfold unenroll_discipline.
    destruct (enrollments db !! s) as [codes|] eqn:E; [|exact Hs].
    destruct (bool_decide _); [|exact Hs].
    intros s0 Hsem. simpl in *. apply lookup_insert_is_Some.
    destruct (decide (s = s0)); [left | right]; auto.
  - unfold set_grades. destruct (disciplines db !! c); exact Hs.
Qed.

Lemma default_db_semesters : semesters_have_lists DefaultData.default_db.
Proof.
  intros s Hsem. unfold DefaultData.default_db in *. simpl in *.
  apply lookup_insert_is_Some in Hsem.
  apply lookup_insert_is_Some.
  destruct Hsem as [->|[Hne Hsem]]; [left; reflexivity|]. right.
  split; [exact Hne|].
  apply lookup_insert_is_Some in Hsem. apply lookup_insert_is_Some.
  destruct Hsem as [->|[Hne' Hsem]]; [left; reflexivity|].
  rewrite lookup_empty in Hsem. destruct Hsem as [? [=]].
Qed.

(** Under [keys_are_codes], the dict that the enrolment route builds holds
    exactly the passing averages, each under the code of its discipline. *)
Lemma completed_disciplines_lookup db (c : string) :
  keys_are_codes db ->
  Enrollments.completed_disciplines db !! c
  = match disciplines db !! c with
    | Some disc =>
        if Enrollments.has_passing_average disc then media_final disc else None
    | None => None
    end.
Proof.
  intros Hk. unfold Enrollments.completed_disciplines.
  assert (Hsound : forall a,
            fold_left Enrollments.completed_step (get_all_disciplines db) ∅ !! c
            = Some a ->
            exists disc, disciplines db !! c = Some disc /\
                         media_final disc = Some a /\ (7 <= a)%Q).
  { intros a Ha.
    apply completed_fold_sound in Ha as [Ha|(disc & Hin & Hc & Hm & Hle)].
    - rewrite lookup_empty in Ha. discriminate.
    - apply get_all_disciplines_elem in Hin as [key Hkey].
      pose proof (Hk _ _ Hkey) as Hcode. simpl in Hcode.
      exists disc. rewrite <- Hc, Hcode. auto. }
  destruct (disciplines db !! c) as [disc|] eqn:Ed.
  - destruct (Enrollments.has_passing_average disc) eqn:Hp.
    + assert (Hin : disc ∈ get_all_disciplines db)
        by (apply get_all_disciplines_elem; eauto).
      destruct (completed_fold_complete _ ∅ disc Hin Hp) as [a Ha].
      rewrite (Hk _ _ Ed) in Ha. rewrite Ha.
      destruct (Hsound a Ha) as (d' & [= <-] & Hm & _). congruence.
    + destruct (fold_left _ _ _ !! c) as [a|] eqn:Ha; [|reflexivity].
      destruct (Hsound a eq_refl) as (d' & [= <-] & Hm & Hle).
      assert (Enrollments.has_passing_average disc = true)
        by (apply has_passing_average_iff; eauto).
      congruence.
  - destruct (fold_left _ _ _ !! c) as [a|] eqn:Ha; [|reflexivity].
    destruct (Hsound a eq_refl) as (d' & [=] & _).
Qed.

(** X7.  Two more invariants of the store hold of the default data and are
    kept by every sequence of operations: every discipline is stored under
    its own code, and every semester has an enrollment list.  Under the
    first, the dict of completed disciplines that the enrolment route builds
    maps a code to the final average of the discipline stored under it when
    that average passes, and holds nothing else. *)
Theorem store_keys_and_semesters db :
  keys_are_codes DefaultData.default_db /\
  semesters_have_lists DefaultData.default_db /\
  (keys_are_codes db ->
     (forall ops, keys_are_codes (run_ops ops db)) /\
     (forall c, Enrollments.completed_disciplines db !! c
                = match disciplines db !! c with
                  | Some disc =>
                      if Enrollments.has_passing_average disc
                      then media_final disc else None
                  | None => None
                  end)) /\
  (semesters_have_lists db ->
     forall ops, semesters_have_lists (run_ops ops db)).
Proof.
  split; [|split; [|split]].
  - apply (bool_decide_unpack _). vm_compute. exact I.
  - apply default_db_semesters.
  - intros Hk. split.
    + intros ops. unfold run_ops. revert db Hk.
      induction ops as [|op ops IH]; intros db Hk; simpl; [exact Hk|].
      apply IH, run_op_keys, Hk.
    + intros c. apply completed_disciplines_lookup, Hk.
  - intros Hs ops. unfold run_ops. revert db Hs.
    induction ops as [|op ops IH]; intros db Hs; simpl; [exact Hs|].
    apply IH, run_op_semesters, Hs.
Qed.

End StoreKeys.

Section StoreRoundTrips.

Implicit Types (db : Database) (codes : list string).

Lemma database_eta db :
  {| disciplines := disciplines db; semesters := semesters db;
     enrollments := enrollments db |} = db.
Proof. destruct db. reflexivity. Qed.

Lemma list_remove_last (c : string) codes :
  c ∉ codes -> list_remove c (codes ++ [c]) = codes.
Proof.
  induction codes as [|x codes IH]; intros Hout; simpl.
  - destruct (decide (c = c)); [reflexivity | contradiction].
  - apply not_elem_of_cons in Hout as [Hne Hout].
    destruct (decide (c = x)); [contradiction|]. rewrite IH by exact Hout.
    reflexivity.
Qed.

Lemma list_remove_absent (c : string) codes :
  c ∉ codes -> list_remove c codes = codes.
Proof.
  induction codes as [|x codes IH]; intros Hout; simpl; [reflexivity|].
  apply not_elem_of_cons in Hout as [Hne Hout].
  destruct (decide (c = x)); [contradiction|]. rewrite IH by exact Hout.
  reflexivity.
Qed.

(** X8.  Unenrolling right after a successful enrolment gives the store
    back as it was.  Unenrolling a code that is not in the list, or from a
    semester without a list, answers false and changes nothing.  Under the
    store invariant a successful unenrolment leaves the code out of the
    list. *)
Lemma unenroll_after_enroll db (s c : string) :
  fst (enroll_discipline db s c) = true ->
  unenroll_discipline (snd (enroll_discipline db s c)) s c = (true, db).
Proof.
  unfold enroll_discipline.
  destruct (enrollments db !! s) as [codes|] eqn:Es; [|discriminate].
  destruct (disciplines db !! c); [|discriminate].
  destruct (decide (c ∈ codes)) as [Hin|Hout].
  - rewrite (bool_decide_eq_true_2 _ Hin). discriminate.
  - rewrite (bool_decide_eq_false_2 _ Hout). simpl. intros _.
    unfold unenroll_discipline. simpl. rewrite lookup_insert_eq.
    rewrite bool_decide_eq_true_2
      by (apply elem_of_app; right; apply list_elem_of_singleton; reflexivity).
    rewrite (list_remove_last c codes Hout), insert_insert_eq.
    rewrite (insert_id _ _ _ Es), database_eta. reflexivity.
Qed.

Theorem enroll_unenroll_round_trip db (s c : string) :
  (fst (enroll_discipline db s c) = true ->
     unenroll_discipline (snd (enroll_discipline db s c)) s c = (true, db)) /\
  (forall codes, enrollments db !! s = Some codes -> c ∉ codes ->
     unenroll_discipline db s c = (false, db)) /\
  (enrollments db !! s = None -> unenroll_discipline db s c = (false, db)) /\
  (store_invariant db ->
     forall codes',
       fst (unenroll_discipline db s c) = true ->
       enrollments (snd (unenroll_discipline db s c)) !! s = Some codes' ->
       c ∉ codes').
Proof.
  split; [|split; [|split]].
  - apply unenroll_after_enroll.
  - intros codes Es Hout. unfold unenroll_discipline.
    rewrite Es, (bool_decide_eq_false_2 _ Hout). reflexivity.
  - intros Es. unfold unenroll_discipline. rewrite Es. reflexivity.
  - intros Hinv codes'. unfold unenroll_discipline.
    destruct (enrollments db !! s) as [codes|] eqn:Es; [|discriminate].
    destruct (bool_decide (c ∈ codes)); [|discriminate].
    simpl. rewrite lookup_insert_eq. intros _ [= <-].
    apply list_remove_gone. exact (proj1 (Hinv s codes Es)).
Qed.

(** X9.  A created discipline is found under its code, as the dict without
    grades, and the other codes are untouched.  Deleting an unknown code
    answers false and changes nothing; after a deletion the code is not
    found.  Under the store invariant, deleting a discipline right after
    creating it under a fresh code gives the store back as it was. *)
Theorem create_delete_round_trip db (d : DisciplineCreate) :
  get_discipline (snd (create_discipline db d)) (new_code d)
    = Some (dict_of_create d) /\
  (forall c, c <> new_code d ->
     get_discipline (snd (create_discipline db d)) c = get_discipline db c) /\
  (forall c, get_discipline db c = None -> delete_discipline db c = (false, db)) /\
  (forall c, get_discipline (snd (delete_discipline db c)) c = None) /\
  (store_invariant db -> get_discipline db (new_code d) = None ->
     delete_discipline (snd (create_discipline db d)) (new_code d) = (true, db)).
Proof.
  unfold get_discipline. split; [|split; [|split; [|split]]].
  - simpl. apply lookup_insert_eq.
  - intros c Hne. simpl. apply lookup_insert_ne. congruence.
  - intros c Hc. unfold delete_discipline. rewrite Hc. reflexivity.
  - intros c. unfold delete_discipline.
    destruct (disciplines db !! c) eqn:E; simpl; [apply lookup_delete_eq | exact E].
  - intros Hinv Hnew. unfold delete_discipline. simpl.
    rewrite lookup_insert_eq. f_equal.
    rewrite delete_insert_eq, (delete_id _ _ Hnew).
    assert (Hsame : (fun codes => if bool_decide (new_code d ∈ codes)
                                  then list_remove (new_code d) codes else codes)
                      <$> enrollments db = enrollments db).
    { apply map_eq. intros s. rewrite lookup_fmap.
      destruct (enrollments db !! s) as [codes|] eqn:Es; [|reflexivity].
      simpl. f_equal.
      destruct (decide (new_code d ∈ codes)) as [Hin|Hout].
      - exfalso. destruct (Hinv s codes Es) as [_ Hall].
        rewrite Forall_forall in Hall. destruct (Hall _ Hin) as [x Hx].
        congruence.
      - rewrite (bool_decide_eq_false_2 _ Hout). reflexivity. }
    rewrite Hsame. apply database_eta.
Qed.

End StoreRoundTrips.

Section StoreBulk.

Implicit Types (db : Database).

Lemma bulk_create_fold (discs : list DisciplineCreate) db (n : nat) :
  exists k,
    let r := fold_left
      (fun '(count, db) disc =>
         match disciplines db !! new_code disc with
         | None => (S count, snd (create_discipline db disc))
         | Some _ => (count, db)
         end) discs (n, db) in
    fst r = (n + k)%nat /\ (k <= length discs)%nat /\
    size (disciplines (snd r)) = (size (disciplines db) + k)%nat /\
    (forall key d, disciplines db !! key = Some d ->
                   disciplines (snd r) !! key = Some d) /\
    (forall disc, disc ∈ discs -> is_Some (disciplines (snd r) !! new_code disc)) /\
    semesters (snd r) = semesters db /\ enrollments (snd r) = enrollments db.
Proof.
  revert db n. induction discs as [|disc discs IH]; intros db n; cbn [fold_left].
  - exists O. cbv zeta. simpl. repeat split; try lia; auto.
    intros disc Hin. apply elem_of_nil in Hin. destruct Hin.
  - destruct (disciplines db !! new_code disc) as [old|] eqn:E.
    + destruct (IH db n) as (k & H1 & H2 & H3 & H4 & H5 & H6 & H7).
      exists k. cbv zeta in *.
      split; [exact H1|]. split; [simpl; lia|]. split; [exact H3|].
      split; [exact H4|]. split; [|split; assumption].
      intros x Hx. apply elem_of_cons in Hx as [->|Hx]; [|apply H5, Hx].
      rewrite (H4 _ _ E). eauto.
    + destruct (IH (snd (create_discipline db disc)) (S n))
        as (k & H1 & H2 & H3 & H4 & H5 & H6 & H7).
      exists (S k). cbv zeta in *.
      split; [rewrite H1; lia|]. split; [simpl; lia|].
      split.
      { rewrite H3. simpl. rewrite (map_size_insert_None _ _ _ E). lia. }
      split.
      { intros key d Hkey. apply H4. simpl.
        rewrite lookup_insert_ne; [exact Hkey | congruence]. }
      split; [|split; assumption].
      intros x Hx. apply elem_of_cons in Hx as [->|Hx]; [|apply H5, Hx].
      rewrite (H4 (new_code disc) (dict_of_create disc)); [eauto|].
      simpl. apply lookup_insert_eq.
Qed.

(** X10.  [bulk_create_disciplines] returns the number of disciplines it
    adds: the store grows by exactly that many, at most one per element of
    the input.  The disciplines already stored are not overwritten, every
    code of the input is stored afterwards, and the semesters and the
    enrollment lists are untouched. *)
Theorem bulk_create_counts db (discs : list DisciplineCreate) :
  let count := fst (bulk_create_disciplines db discs) in
  let db' := snd (bulk_create_disciplines db discs) in
  (count <= length discs)%nat /\
  size (disciplines db') = (size (disciplines db) + count)%nat /\
  (forall key d, disciplines db !! key = Some d ->
                 disciplines db' !! key = Some d) /\
  (forall disc, disc ∈ discs -> is_Some (disciplines db' !! new_code disc)) /\
  semesters db' = semesters db /\ enrollments db' = enrollments db.
Proof.
  destruct (bulk_create_fold discs db O) as (k & H1 & H2 & H3 & H4 & H5 & H6 & H7).
  cbv zeta in *. unfold bulk_create_disciplines.
  rewrite H1. simpl. repeat split; assumption.
Qed.

End StoreBulk.

Section StoreGrades.

Implicit Types (db : Database).

(** X11.  After [set_grades] on a stored discipline, [get_grades] returns the
    three grades just written together with the final average that was
    stored before: [set_grades] does not recompute it.  On an unknown code
    [set_grades] answers false, changes nothing, and [get_grades] returns
    [None].  The grades of the other disciplines are untouched. *)
Theorem set_get_grades db (c : string) (g1 g2 g3 : Q) :
  (forall d, disciplines db !! c = Some d ->
     fst (set_grades db c g1 g2 g3) = true /\
     get_grades (snd (set_grades db c g1 g2 g3)) c
     = Some {| grades_n1 := Some g1; grades_n2 := Some g2;
               grades_n3 := Some g3;
               grades_media_final := media_final d |}) /\
  (disciplines db !! c = None ->
     set_grades db c g1 g2 g3 = (false, db) /\ get_grades db c = None) /\
  (forall c', c' <> c ->
     get_grades (snd (set_grades db c g1 g2 g3)) c' = get_grades db c').
Proof.
  unfold set_grades, get_grades. split; [|split].
  - intros d Hd. rewrite Hd. simpl. rewrite lookup_insert_eq. auto.
  - intros Hd. rewrite Hd. auto.
  - intros c' Hne. destruct (disciplines db !! c) as [d|]; [|reflexivity].
    simpl. rewrite lookup_insert_ne by congruence. reflexivity.
Qed.

End StoreGrades.

Section StoreStatistics.

Implicit Types (db : Database).

Lemma fold_Zadd_shift (values : list Z) (a : Z) :
  fold_left Z.add values a = (a + fold_left Z.add values 0)%Z.
Proof.
  revert a. induction values as [|x values IH]; intros a; cbn [fold_left]; [lia|].
  rewrite (IH (a + x)%Z), (IH (0 + x)%Z). lia.
Qed.

Lemma py_sum_int_cons (x : Z) (values : list Z) :
  py_sum_int (x :: values) = (x + py_sum_int values)%Z.
Proof. unfold py_sum_int. cbn [fold_left]. rewrite fold_Zadd_shift. lia. Qed.

Lemma hours_of_filter (keep : Discipline -> bool) (discs : list Discipline) :
  Forall (fun disc => 0 <= hours disc)%Z discs ->
  (0 <= py_sum_int (List.map hours (List.filter keep discs))
   <= py_sum_int (List.map hours discs))%Z.
Proof.
  induction 1 as [|disc discs Hd _ IH]; simpl; [unfold py_sum_int; simpl; lia|].
  destruct (keep disc); simpl; rewrite ?py_sum_int_cons; lia.
Qed.

Lemma py_sum_at_least (lo : Q) (values : list Q) :
  Forall (fun x => lo <= x)%Q values ->
  (lo * inject_Z (Z.of_nat (length values)) <= py_sum values)%Q.
Proof.
  induction 1 as [|x values Hlo _ IH].
  - unfold py_sum. simpl. change (inject_Z 0) with 0%Q.
    rewrite Qmult_0_r. apply Qle_refl.
  - rewrite py_sum_cons. cbn [length]. rewrite Nat2Z.inj_succ.
    unfold Z.succ. rewrite inject_Z_plus. change (inject_Z 1) with 1%Q. nra.
Qed.

Lemma passing_averages (discs : list Discipline) :
  Forall (fun x => 7 <= x)%Q
    (List.map (fun disc => default 0%Q (media_final disc))
       (List.filter Enrollments.has_passing_average discs)).
Proof.
  induction discs as [|disc discs IH]; simpl; [constructor|].
  destruct (Enrollments.has_passing_average disc) eqn:Hp; [|exact IH].
  simpl. constructor; [|exact IH].
  apply has_passing_average_iff in Hp as (a & -> & Hle). exact Hle.
Qed.

Lemma get_general_average_at_least db (r : Q) :
  get_general_average db = Some r -> (7 <= r)%Q.
Proof.
  unfold get_general_average.
  pose proof (passing_averages (get_all_disciplines db)) as Hall.
  destruct (List.map _ _) as [|x rest] eqn:E; [discriminate|].
  intros [= <-].
  assert (Hlen : (0 < Z.of_nat (length (x :: rest)))%Z) by (simpl; lia).
  assert (Hpos : (0 < inject_Z (Z.of_nat (length (x :: rest))))%Q).
  { change 0%Q with (inject_Z 0). rewrite <- Zlt_Qlt. exact Hlen. }
  rewrite <- (round2_inject 7). apply round2_mono.
  apply Qle_shift_div_l; [exact Hpos|].
  apply (py_sum_at_least 7 _ Hall).
Qed.

(** X12.  When no discipline has negative hours, the completed hours are
    between 0 and the total hours.  [get_general_average] is [None] exactly
    when no stored discipline has a passing final average, and a value it
    returns is at least 7. *)
Theorem statistics_bounds db :
  (map_Forall (fun _ disc => 0 <= hours disc)%Z (disciplines db) ->
     (0 <= get_completed_hours db <= get_total_hours db)%Z) /\
  (get_general_average db = None <->
   forall key disc, disciplines db !! key = Some disc ->
                    Enrollments.has_passing_average disc = false) /\
  (forall r, get_general_average db = Some r -> (7 <= r)%Q).
Proof.
  split; [|split].
  - intros Hh. unfold get_completed_hours, get_total_hours.
    apply hours_of_filter. apply Forall_forall. intros disc Hin.
    apply get_all_disciplines_elem in Hin as [key Hkey]. exact (Hh _ _ Hkey).
  - unfold get_general_average.
    destruct (List.filter Enrollments.has_passing_average (get_all_disciplines db))
      as [|disc rest] eqn:E; simpl.
    + split; [|reflexivity]. intros _ key disc Hkey.
      destruct (Enrollments.has_passing_average disc) eqn:Hp; [|reflexivity].
      assert (Hin : In disc (List.filter Enrollments.has_passing_average
                               (get_all_disciplines db))).
      { apply filter_In. split; [|exact Hp].
        apply list_elem_of_In, get_all_disciplines_elem. eauto. }
      rewrite E in Hin. destruct Hin.
    + split; [discriminate|]. intros Hnone. exfalso.
      assert (Hin : In disc (List.filter Enrollments.has_passing_average
                               (get_all_disciplines db)))
        by (rewrite E; left; reflexivity).
      apply filter_In in Hin as [Hin Hp].
      apply list_elem_of_In, get_all_disciplines_elem in Hin as [key Hkey].
      rewrite (Hnone _ _ Hkey) in Hp. discriminate.
  - apply get_general_average_at_least.
Qed.

End StoreStatistics.

Section EnrolledListing.

Implicit Types (db : Database) (codes : list string).

Lemma omap_resolved (m : gmap string Discipline) codes :
  Forall (fun c => is_Some (m !! c)) codes ->
  map_Forall (fun key disc => code disc = key) m ->
  List.map code (omap (fun c => m !! c) codes) = codes.
Proof.
  intros Hall Hk. induction Hall as [|c codes [d Hd] _ IH]; [reflexivity|].
  cbn [omap list_omap]. rewrite Hd. simpl. rewrite IH.
  f_equal. exact (Hk _ _ Hd).
Qed.

Lemma omap_length_le (m : gmap string Discipline) codes :
  (length (omap (fun c => m !! c) codes) <= length codes)%nat.
Proof.
  induction codes as [|c codes IH]; [reflexivity|].
  cbn [omap list_omap]. destruct (m !! c); simpl in *; lia.
Qed.

(** X13.  [get_enrolled_disciplines] returns the empty list for a semester
    without a list, and never more disciplines than the list has codes.
    Under the store invariants it resolves every code, in list order.  After
    a successful enrolment it returns what it returned before, followed by
    the new discipline. *)
Theorem enrolled_listing db (s : string) :
  (enrollments db !! s = None -> get_enrolled_disciplines db s = []) /\
  (forall codes, enrollments db !! s = Some codes ->
     (length (get_enrolled_disciplines db s) <= length codes)%nat /\
     (store_invariant db -> keys_are_codes db ->
        List.map code (get_enrolled_disciplines db s) = codes)) /\
  (forall c disc,
     fst (enroll_discipline db s c) = true ->
     disciplines db !! c = Some disc ->
     get_enrolled_disciplines (snd (enroll_discipline db s c)) s
     = get_enrolled_disciplines db s ++ [disc]).
Proof.
  unfold get_enrolled_disciplines. split; [|split].
  - intros ->. reflexivity.
  - intros codes Es. rewrite Es. split.
    + apply omap_length_le.
    + intros Hinv Hk. apply omap_resolved; [|exact Hk].
      exact (proj2 (Hinv s codes Es)).
  - intros c disc. unfold enroll_discipline.
    destruct (enrollments db !! s) as [codes|] eqn:Es; [|discriminate].
    destruct (disciplines db !! c) as [d|] eqn:Ec; [|discriminate].
    destruct (negb (bool_decide (c ∈ codes))); [|discriminate].
    intros _ [= <-]. simpl. rewrite lookup_insert_eq, omap_app.
    f_equal. cbn [omap list_omap]. rewrite Ec. reflexivity.
Qed.

End EnrolledListing.

Section StoreWitnesses.

Import DefaultData SampleData.

Lemma store_keys_and_semesters_witness :
  keys_are_codes
    (run_ops [CreateDiscipline estagio; SetGrades "99002" 9 8 7;
              DeleteDiscipline "14117"] default_db) /\
  semesters_have_lists
    (run_ops [CreateSemester (mkSemester "2025.1" PLANEJADO);
              EnrollDiscipline "2025.1" "14117"] default_db).
Proof.
  split.
  - apply (proj1 (proj1 (proj2 (proj2 (store_keys_and_semesters default_db)))
             ltac:(apply (bool_decide_unpack _); vm_compute; exact I))).
  - apply (proj2 (proj2 (proj2 (store_keys_and_semesters default_db)))
             (proj1 (proj2 (store_keys_and_semesters default_db)))).
Defined.

Lemma enroll_unenroll_round_trip_witness :
  unenroll_discipline (snd (enroll_discipline default_db "2024.1" "14117"))
    "2024.1" "14117" = (true, default_db).
Proof.
  apply (proj1 (enroll_unenroll_round_trip default_db "2024.1" "14117")).
  vm_compute. reflexivity.
Defined.

Lemma create_delete_round_trip_witness :
  delete_discipline (snd (create_discipline default_db estagio)) "99002"
  = (true, default_db).
Proof.
  apply (proj2 (proj2 (proj2 (proj2
           (create_delete_round_trip default_db estagio))))).
  - apply (bool_decide_unpack _). vm_compute. exact I.
  - vm_compute. reflexivity.
Defined.

Lemma bulk_create_counts_witness :
  disciplines (snd (bulk_create_disciplines default_db [estagio; estagio]))
    !! "14117" = Some introducao_programacao.
Proof.
  apply (proj1 (proj2 (proj2
           (bulk_create_counts default_db [estagio; estagio])))).
  vm_compute. reflexivity.
Defined.

Lemma set_get_grades_witness :
  fst (set_grades default_db "14117" 9 8 7) = true /\
  get_grades (snd (set_grades default_db "14117" 9 8 7)) "14117"
  = Some {| grades_n1 := Some 9%Q; grades_n2 := Some 8%Q;
            grades_n3 := Some 7%Q;
            grades_media_final := media_final introducao_programacao |}.
Proof.
  apply (proj1 (set_get_grades default_db "14117" 9 8 7)).
  vm_compute. reflexivity.
Defined.

Lemma statistics_bounds_witness :
  (0 <= get_completed_hours default_db <= get_total_hours default_db)%Z.
Proof.
  apply (proj1 (statistics_bounds default_db)).
  apply (bool_decide_unpack _). vm_compute. exact I.
Defined.

Lemma enrolled_listing_witness :
  get_enrolled_disciplines
    (snd (enroll_discipline default_db "2024.1" "14117")) "2024.1"
  = get_enrolled_disciplines default_db "2024.1" ++ [introducao_programacao].
Proof.
  apply (proj2 (proj2 (enrolled_listing default_db "2024.1"))).
  - vm_compute. reflexivity.
  - vm_compute. reflexivity.
Defined.

End StoreWitnesses.

Import RouteSpec.

Section EnrollRoute.

Variable py_int : string -> option Z.

Implicit Types (db : Database) (request : EnrollmentRequest).

Lemma first_conflicting_none_inv (target : Discipline) (enrolled : list Discipline) :
  Enrollments.first_conflicting py_int (schedules target) enrolled = inr None ->
  Forall (Enrollments.no_conflict_with py_int target) enrolled.
Proof.
  induction enrolled as [|d enrolled IH]; simpl; [constructor|].
  destruct (has_schedule_conflict py_int (schedules target) (schedules d))
    as [e|r] eqn:E; simpl; [discriminate|].
  destruct (has_schedule_conflict_shape py_int _ _ _ E) as [->|[info ->]]; simpl.
  - intros H. constructor; [exact E | apply IH, H].
  - discriminate.
Qed.




Lemma missing_nil_iff (required : list string) (completed : gmap string Q) :
  missingPrerequisites required completed = [] <->
  Forall (passed completed) required.
Proof.
  unfold missingPrerequisites.
  induction required as [|c required IH]; simpl.
  - split; [constructor | reflexivity].
  - destruct (decide (passed completed c)) as [Hp|Hn].
    + rewrite (bool_decide_eq_true_2 _ Hp). simpl. rewrite IH.
      split; [intros H; constructor; assumption | intros H; inversion H; assumption].
    + rewrite (bool_decide_eq_false_2 _ Hn). simpl.
      split; [discriminate | intros H; inversion H; contradiction].
Qed.

(** X14.  The enrolment route answers [EnrolledSuccessfully] exactly when
    the semester and the discipline exist, the semester has a list that does
    not hold the code, every prerequisite is the code of a stored discipline
    with a final average of at least 7.0, and the detector reports no
    conflict with any discipline already enrolled in the semester.  Then the
    code is appended to the list, and that is the only change; with any
    other answer the store is left as it was. *)
Theorem enroll_success_safe db request :
  (fst (Enrollments.enroll_discipline py_int db request)
     = inr Enrollments.EnrolledSuccessfully <->
   exists semester discipline codes,
     get_semester db (req_semester_code request) = Some semester /\
     get_discipline db (req_discipline_code request) = Some discipline /\
     enrollments db !! req_semester_code request = Some codes /\
     (req_discipline_code request ∉ codes) /\
     Forall (Enrollments.stored_passed db) (prerequisites discipline) /\
     Forall (Enrollments.no_conflict_with py_int discipline)
            (get_enrolled_disciplines db (req_semester_code request))) /\
  (fst (Enrollments.enroll_discipline py_int db request)
     = inr Enrollments.EnrolledSuccessfully ->
   exists codes,
     enrollments db !! req_semester_code request = Some codes /\
     snd (Enrollments.enroll_discipline py_int db request)
     = {| disciplines := disciplines db;
          semesters := semesters db;
          enrollments :=
            <[req_semester_code request := codes ++ [req_discipline_code request]]>
              (enrollments db) |}) /\
  (fst (Enrollments.enroll_discipline py_int db request)
     <> inr Enrollments.EnrolledSuccessfully ->
   snd (Enrollments.enroll_discipline py_int db request) = db).
Proof.
  set (s := req_semester_code request). set (c := req_discipline_code request).
  assert (Hpassed : forall discipline,
            missingPrerequisites (prerequisites discipline)
              (Enrollments.completed_disciplines db) = [] <->
            Forall (Enrollments.stored_passed db) (prerequisites discipline)).
  { intros discipline. rewrite missing_nil_iff. rewrite !Forall_forall.
    split; intros H x Hx; apply completed_disciplines_passed, H, Hx. }
  destruct (get_semester db s) as [semester|] eqn:Hs.
  2:{ unfold Enrollments.enroll_discipline. fold s. rewrite Hs. simpl.
      split; [|split]; [split|..]; try discriminate; try reflexivity.
      intros (? & ? & ? & [=] & _). }
  destruct (get_discipline db c) as [discipline|] eqn:Hd.
  2:{ unfold Enrollments.enroll_discipline. fold s c. rewrite Hs, Hd. simpl.
      split; [|split]; [split|..]; try discriminate; try reflexivity.
      intros (? & ? & ? & _ & [=] & _). }
  destruct (decide (missingPrerequisites (prerequisites discipline)
                      (Enrollments.completed_disciplines db) = []))
    as [Hmet|Hunmet].
  2:{ rewrite (enroll_route_unmet py_int db request semester discipline
                 Hs Hd Hunmet). simpl.
      split; [|split]; [split|..]; try discriminate; try reflexivity.
      intros (? & d' & ? & _ & Hd' & _ & _ & Hp & _).
      injection Hd' as <-.
      apply Hpassed in Hp. contradiction. }
  rewrite (enroll_route_met py_int db request semester discipline Hs Hd Hmet).
  fold s c.
  destruct (Enrollments.first_conflicting py_int (schedules discipline)
              (get_enrolled_disciplines db s)) as [e|[other|]] eqn:Hscan.
  - simpl. split; [|split]; [split|..]; try discriminate; try reflexivity.
    intros (? & d' & ? & _ & Hd' & _ & _ & _ & Hno).
    injection Hd' as <-.
    rewrite (first_conflicting_none py_int _ _ Hno) in Hscan. discriminate.
  - simpl. split; [|split]; [split|..]; try discriminate; try reflexivity.
    intros (? & d' & ? & _ & Hd' & _ & _ & _ & Hno).
    injection Hd' as <-.
    rewrite (first_conflicting_none py_int _ _ Hno) in Hscan. discriminate.
  - apply first_conflicting_none_inv in Hscan.
    destruct (enroll_discipline_effect db s c)
      as [(Ht & codes & Hc & Hout & _ & Hdb)|(Hf & Hdb & Hno)].
    + destruct (Db.enroll_discipline db s c) as [ok db'].
      simpl in Ht, Hdb. subst ok db'. simpl.
      split; [|split].
      * split; [intros _|reflexivity].
        exists semester, discipline, codes. repeat split; try assumption.
        apply Hpassed, Hmet.
      * intros _. exists codes. split; [exact Hc | reflexivity].
      * intros H. contradiction.
    + destruct (Db.enroll_discipline db s c) as [ok db'].
      simpl in Hf, Hdb. subst ok db'. simpl.
      split; [|split]; [split|..]; try discriminate; try reflexivity.
      intros (? & ? & codes & _ & _ & Hc & Hout & _). exfalso. apply Hno.
      exists codes. repeat split; try assumption.
      unfold get_discipline in Hd. rewrite Hd. eauto.
Qed.

End EnrollRoute.

Section EnrollRouteErrors.

Variable py_int : string -> option Z.

Implicit Types (db : Database) (request : EnrollmentRequest).


End EnrollRouteErrors.

Section OtherEnrollmentRoutes.

Implicit Types (db : Database) (request : EnrollmentRequest).

Lemma enroll_route_success_store (py_int : string -> option Z) db request :
  fst (Enrollments.enroll_discipline py_int db request)
    = inr Enrollments.EnrolledSuccessfully ->
  fst (Db.enroll_discipline db (req_semester_code request)
                               (req_discipline_code request)) = true /\
  snd (Enrollments.enroll_discipline py_int db request)
  = snd (Db.enroll_discipline db (req_semester_code request)
                                 (req_discipline_code request)).
Proof.
  unfold Enrollments.enroll_discipline.
  destruct (get_semester db _); [|discriminate].
  destruct (get_discipline db _); [|discriminate].
  destruct (check_prerequisites _ _) as [met missing].
  destruct met; simpl; [|discriminate].
  destruct (Enrollments.first_conflicting _ _ _) as [e'|[other|]];
    simpl; try discriminate.
  destruct (Db.enroll_discipline db _ _) as [[|] db']; simpl;
    [auto | discriminate].
Qed.

(** X16.  The unenrolment route answers [Removed] exactly when the code is
    in the list of the semester; otherwise it answers [NotEnrolled] and
    leaves the store as it was: it raises nothing, whether or not the
    semester or the discipline exists.  Right after a successful enrolment
    of the same request it answers [Removed] and gives the store back as it
    was before the enrolment. *)
Theorem unenroll_route_outcomes (py_int : string -> option Z) db request :
  (fst (EnrollmentRoutes.unenroll_discipline db request)
     = EnrollmentRoutes.Removed <->
   exists codes, enrollments db !! req_semester_code request = Some codes /\
                 req_discipline_code request ∈ codes) /\
  (fst (EnrollmentRoutes.unenroll_discipline db request)
     = EnrollmentRoutes.Removed \/
   EnrollmentRoutes.unenroll_discipline db request
     = (EnrollmentRoutes.NotEnrolled, db)) /\
  (fst (Enrollments.enroll_discipline py_int db request)
     = inr Enrollments.EnrolledSuccessfully ->
   EnrollmentRoutes.unenroll_discipline
     (snd (Enrollments.enroll_discipline py_int db request)) request
   = (EnrollmentRoutes.Removed, db)).
Proof.
  set (s := req_semester_code request). set (c := req_discipline_code request).
  assert (Hcases :
    (exists codes, enrollments db !! s = Some codes /\ c ∈ codes /\
                   fst (Db.unenroll_discipline db s c) = true) \/
    ((~ exists codes, enrollments db !! s = Some codes /\ c ∈ codes) /\
     Db.unenroll_discipline db s c = (false, db))).
  { unfold Db.unenroll_discipline.
    destruct (enrollments db !! s) as [codes|] eqn:Es.
    - destruct (decide (c ∈ codes)) as [Hin|Hout].
      + rewrite (bool_decide_eq_true_2 _ Hin). left. eauto.
      + rewrite (bool_decide_eq_false_2 _ Hout). right.
        split; [|reflexivity]. intros (codes' & [= <-] & Hin). contradiction.
    - right. split; [|reflexivity]. intros (codes' & [=] & _). }
  split; [|split].
  - unfold EnrollmentRoutes.unenroll_discipline. fold s c.
    destruct Hcases as [(codes & Hc & Hin & Hok)|[Hno ->]].
    + destruct (Db.unenroll_discipline db s c) as [ok db'].
      simpl in Hok. subst ok. simpl. split; [eauto | reflexivity].
    + simpl. split; [discriminate | intros H; contradiction].
  - unfold EnrollmentRoutes.unenroll_discipline. fold s c.
    destruct Hcases as [(codes & Hc & Hin & Hok)|[Hno ->]].
    + destruct (Db.unenroll_discipline db s c) as [ok db'].
      simpl in Hok. subst ok. left. reflexivity.
    + right. reflexivity.
  - intros Hok.
    destruct (enroll_route_success_store py_int db request Hok) as [Ht ->].
    unfold EnrollmentRoutes.unenroll_discipline. fold s c.
    rewrite (unenroll_after_enroll db s c Ht). reflexivity.
Qed.

(** X17.  The route that creates a semester refuses an existing code with
    400 and leaves the store as it was.  A new semester is stored as given,
    with an empty list of enrolled disciplines, and nothing else changes.
    The store method on its own resets the list of the code to empty. *)
Theorem create_semester_route db (semester : Semester) :
  (is_Some (get_semester db (semester_code semester)) ->
     EnrollmentRoutes.create_semester db semester
     = (inl (HTTPException 400 "Semestre já existe"), db)) /\
  (get_semester db (semester_code semester) = None ->
     let db' := snd (EnrollmentRoutes.create_semester db semester) in
     fst (EnrollmentRoutes.create_semester db semester) = inr semester /\
     get_semester db' (semester_code semester) = Some semester /\
     EnrollmentRoutes.get_enrolled_disciplines db' (semester_code semester)
       = inr [] /\
     disciplines db' = disciplines db /\
     forall s, s <> semester_code semester ->
               get_semester db' s = get_semester db s /\
               enrollments db' !! s = enrollments db !! s) /\
  enrollments (snd (Db.create_semester db semester)) !! semester_code semester
    = Some [].
Proof.
  unfold EnrollmentRoutes.create_semester, EnrollmentRoutes.get_enrolled_disciplines.
  split; [|split].
  - intros [old ->]. reflexivity.
  - intros ->. simpl. unfold get_semester, Db.get_enrolled_disciplines. simpl.
    rewrite !lookup_insert_eq. repeat split; try reflexivity.
    + rewrite lookup_insert_ne by congruence. reflexivity.
    + rewrite lookup_insert_ne by congruence. reflexivity.
  - simpl. apply lookup_insert_eq.
Qed.


End OtherEnrollmentRoutes.

Section GradesRoute.

Variable py_str : Q -> string.

Implicit Types (db : Database).




End GradesRoute.

Section Validation.

Variable py_strip : string -> string.

Lemma string_eqb_empty (s : string) : String.eqb s "" = false <-> s <> ""%string.
Proof.
  destruct (String.eqb_spec s ""); split; intros H; congruence.
Qed.

Lemma validation_flags (code name professor : string) (period hours : Z) :
  DataValidation.validate_discipline_code py_strip code = true /\
  String.eqb name "" = false /\ String.eqb professor "" = false /\
  DataValidation.validate_period period = true /\
  DataValidation.validate_hours hours = true <->
  discipline_data_ok py_strip code name professor period hours.
Proof.
  unfold discipline_data_ok, DataValidation.validate_discipline_code,
    DataValidation.validate_period, DataValidation.validate_hours.
  rewrite !andb_true_iff, negb_true_iff, !string_eqb_empty,
    Nat.ltb_lt, !Z.leb_le, Z.gtb_ltb, Z.ltb_lt.
  tauto.
Qed.

Ltac closed_list_goal :=
  match goal with
  | |- _ <-> _ =>
      split; intros ?;
      first [ reflexivity | discriminate
            | apply (bool_decide_unpack _); vm_compute; exact I
            | exfalso;
              match goal with
              | H : _ ∈ _ |- _ =>
                  revert H; apply (bool_decide_unpack _); vm_compute; exact I
              | H : _ = _ |- _ => discriminate H
              end ]
  end.

(** X20.  [validate_discipline_data] answers true exactly when the code is
    not blank, the name and the professor are not empty, the period is
    within [[1, 9]] and the hours are positive; it answers true exactly when
    it returns no message, and each of the five messages is returned exactly
    when its own check fails. *)
Theorem validate_discipline_data_errors (code name professor : string)
    (period hours : Z) :
  let r := DataValidation.validate_discipline_data py_strip
             code name professor period hours in
  (fst r = true <-> discipline_data_ok py_strip code name professor period hours) /\
  (fst r = true <-> snd r = []) /\
  ("Código de disciplina inválido"%string ∈ snd r <->
     DataValidation.validate_discipline_code py_strip code = false) /\
  ("Nome da disciplina inválido"%string ∈ snd r <-> name = ""%string) /\
  ("Nome do professor inválido"%string ∈ snd r <-> professor = ""%string) /\
  ("Período deve estar entre 1 e 9"%string ∈ snd r <->
     ~ (1 <= period <= 9)%Z) /\
  ("Carga horária deve ser maior que 0"%string ∈ snd r <-> (hours <= 0)%Z).
Proof.
  cbv zeta. rewrite <- validation_flags.
  assert (Hn : forall s, s = ""%string <-> String.eqb s "" = true).
  { intros s. destruct (String.eqb_spec s ""); split; congruence. }
  assert (Hp : ~ (1 <= period <= 9)%Z <->
               DataValidation.validate_period period = false).
  { unfold DataValidation.validate_period.
    rewrite andb_false_iff, !Z.leb_gt. lia. }
  assert (Hh : (hours <= 0)%Z <-> DataValidation.validate_hours hours = false).
  { unfold DataValidation.validate_hours. rewrite Z.gtb_ltb, Z.ltb_ge. tauto. }
  rewrite (Hn name), (Hn professor), Hp, Hh.
  unfold DataValidation.validate_discipline_data.
  destruct (DataValidation.validate_discipline_code py_strip code);
  destruct (String.eqb name ""); destruct (String.eqb professor "");
  destruct (DataValidation.validate_period period);
  destruct (DataValidation.validate_hours hours); simpl;
  (split; [|split; [|split; [|split; [|split; [|split]]]]]);
  try closed_list_goal;
  (split; [try discriminate; intros; repeat split; reflexivity
          | intros (? & ? & ? & ? & ?); try discriminate; reflexivity]).
Qed.

End Validation.

Section CreateRoute.

Variable py_strip : string -> string.

Implicit Types (db : Database) (d : DisciplineCreate).

Lemma validate_discipline_data_valid (code name professor : string)
    (period hours : Z) :
  fst (DataValidation.validate_discipline_data py_strip
         code name professor period hours) = true <->
  discipline_data_ok py_strip code name professor period hours.
Proof.
  rewrite <- validation_flags.
  unfold DataValidation.validate_discipline_data.
  destruct (DataValidation.validate_discipline_code py_strip code);
  destruct (String.eqb name ""); destruct (String.eqb professor "");
  destruct (DataValidation.validate_period period);
  destruct (DataValidation.validate_hours hours); simpl;
  (split; [try discriminate; intros; repeat split; reflexivity
          | intros (? & ? & ? & ? & ?); try discriminate; reflexivity]).
Qed.

(** X21.  The route that creates a discipline succeeds exactly when the
    code is not stored yet and the data pass the validation; it then stores
    the dict without grades under the code and returns it.  Every refusal is
    a 400 that leaves the store as it was; an existing code is refused
    before the data are looked at. *)
Theorem create_discipline_route db d :
  (is_Some (get_discipline db (new_code d)) ->
     DisciplineRoutes.create_discipline py_strip db d
     = (inl (HTTPException 400 "Disciplina já existe"), db)) /\
  ((exists r, fst (DisciplineRoutes.create_discipline py_strip db d) = inr r) <->
   get_discipline db (new_code d) = None /\
   discipline_data_ok py_strip (new_code d) (new_name d) (new_professor d)
                      (new_period d) (new_hours d)) /\
  (forall r, fst (DisciplineRoutes.create_discipline py_strip db d) = inr r ->
     r = dict_of_create d /\
     get_discipline (snd (DisciplineRoutes.create_discipline py_strip db d))
                    (new_code d) = Some r /\
     snd (DisciplineRoutes.create_discipline py_strip db d)
     = snd (Db.create_discipline db d)) /\
  (forall e, fst (DisciplineRoutes.create_discipline py_strip db d) = inl e ->
     snd (DisciplineRoutes.create_discipline py_strip db d) = db /\
     exists detail, e = HTTPException 400 detail).
Proof.
  unfold DisciplineRoutes.create_discipline.
  destruct (get_discipline db (new_code d)) as [old|] eqn:Hd.
  - split; [reflexivity|]. split; [|split].
    + split; [intros [r [=]] | intros [[=] _]].
    + intros r [=].
    + intros e [= <-]. split; [reflexivity | eauto].
  - pose proof (validate_discipline_data_valid (new_code d) (new_name d)
                  (new_professor d) (new_period d) (new_hours d)) as Hv.
    destruct (DataValidation.validate_discipline_data py_strip _ _ _ _ _)
      as [valid errors].
    simpl in Hv. destruct valid; simpl.
    + split; [intros [? [=]]|]. split; [|split].
      * split; [intros _; split; [reflexivity | apply Hv; reflexivity]|eauto].
      * intros r [= <-]. split; [reflexivity|]. split; [|reflexivity].
        unfold get_discipline. simpl. apply lookup_insert_eq.
      * intros e [=].
    + split; [intros [? [=]]|]. split; [|split].
      * split; [intros [r [=]]|]. intros [_ Hok]. apply Hv in Hok. discriminate.
      * intros r [=].
      * intros e [= <-]. split; [reflexivity | eauto].
Qed.

End CreateRoute.

Section RouteWitnesses.

Import DefaultData SampleData.

Lemma enroll_success_safe_witness :
  exists codes,
    enrollments default_db !! "2024.1" = Some codes /\
    snd (Enrollments.enroll_discipline int_of_digits default_db
           (mkEnrollmentRequest "2024.1" "14117"))
    = {| disciplines := disciplines default_db;
         semesters := semesters default_db;
         enrollments := <["2024.1" := codes ++ ["14117"]]>
                          (enrollments default_db) |}.
Proof.
  apply (proj1 (proj2 (enroll_success_safe int_of_digits default_db
                         (mkEnrollmentRequest "2024.1" "14117")))).
  vm_compute. reflexivity.
Defined.


Lemma unenroll_route_outcomes_witness :
  EnrollmentRoutes.unenroll_discipline
    (snd (Enrollments.enroll_discipline int_of_digits default_db
            (mkEnrollmentRequest "2024.1" "14117")))
    (mkEnrollmentRequest "2024.1" "14117")
  = (EnrollmentRoutes.Removed, default_db).
Proof.
  apply (proj2 (proj2 (unenroll_route_outcomes int_of_digits default_db
                         (mkEnrollmentRequest "2024.1" "14117")))).
  vm_compute. reflexivity.
Defined.

Lemma create_semester_route_witness :
  EnrollmentRoutes.create_semester default_db (mkSemester "2024.1" ENCERRADO)
  = (inl (HTTPException 400 "Semestre já existe"), default_db) /\
  fst (EnrollmentRoutes.create_semester default_db (mkSemester "2025.1" PLANEJADO))
  = inr (mkSemester "2025.1" PLANEJADO).
Proof.
  split.
  - apply (proj1 (create_semester_route default_db
                    (mkSemester "2024.1" ENCERRADO))).
    eexists. vm_compute. reflexivity.
  - apply (proj1 (proj2 (create_semester_route default_db
                           (mkSemester "2025.1" PLANEJADO)))).
    vm_compute. reflexivity.
Defined.


Lemma validate_discipline_data_errors_witness :
  "Período deve estar entre 1 e 9"%string
    ∈ snd (DataValidation.validate_discipline_data same_text
             "14117" "" "DM" 12 60).
Proof.
  apply (proj2 (proj1 (proj2 (proj2 (proj2 (proj2 (proj2
           (validate_discipline_data_errors same_text "14117" "" "DM" 12 60)))))))).
  lia.
Defined.

Lemma create_discipline_route_witness :
  DisciplineRoutes.create_discipline same_text default_db
    (mkDisciplineCreate "14117" "X" "Y" 1 60 [] [])
  = (inl (HTTPException 400 "Disciplina já existe"), default_db).
Proof.
  apply (proj1 (create_discipline_route same_text default_db
                  (mkDisciplineCreate "14117" "X" "Y" 1 60 [] []))).
  eexists. vm_compute. reflexivity.
Defined.

End RouteWitnesses.

Section TimeFormat.

Variable py_int : string -> option Z.

Lemma split_colon_no_colon (s : string) :
  has_colon s = false -> split_colon s = [s].
Proof.
  induction s as [|c s IH]; simpl; [reflexivity|].
  destruct (Ascii.eqb c ":"); simpl; [discriminate|].
  intros H. rewrite (IH H). reflexivity.
Qed.

(** X22.  The importer's [_validate_time_format] accepts exactly the time
    tokens that [time_to_minutes] converts: two pieces around one colon,
    both read by [int], hours within [[0, 24)] and minutes within [[0, 60)];
    it rejects exactly those on which [time_to_minutes] raises. *)
Theorem validate_time_format_agrees (time_str : string) :
  (CSVImporter._validate_time_format py_int time_str = true <->
   exists h m, well_formed_time py_int time_str h m) /\
  (CSVImporter._validate_time_format py_int time_str = true <->
   exists minutes, time_to_minutes py_int time_str = inr minutes) /\
  (CSVImporter._validate_time_format py_int time_str = false <->
   time_to_minutes py_int time_str = inl MalformedTimeError).
Proof.
  assert (Hwf : CSVImporter._validate_time_format py_int time_str = true <->
                exists h m, well_formed_time py_int time_str h m).
  { unfold CSVImporter._validate_time_format, well_formed_time.
    destruct (String.eqb_spec time_str "") as [->|Hne]; simpl.
    { split; [discriminate|]. intros (h & m & hs & ms & [=] & _). }
    destruct (has_colon time_str) eqn:Hc; simpl.
    2:{ split; [discriminate|]. intros (h & m & hs & ms & E & _).
        rewrite (split_colon_no_colon _ Hc) in E. discriminate. }
    destruct (split_colon time_str) as [|hs [|ms [|x rest]]] eqn:E; simpl.
    - split; [discriminate|]. intros (h & m & ? & ? & [=] & _).
    - split; [discriminate|]. intros (h & m & ? & ? & [=] & _).
    - destruct (py_int hs) as [h|] eqn:Eh.
      + destruct (py_int ms) as [m|] eqn:Em.
        * rewrite !andb_true_iff, !Z.leb_le, !Z.ltb_lt. split.
          -- intros H. exists h, m, hs, ms. repeat split; try assumption; lia.
          -- intros (h' & m' & hs' & ms' & [= <- <-] & Hh & Hm & Rh & Rm).
             rewrite Eh in Hh. rewrite Em in Hm.
             injection Hh as <-. injection Hm as <-. lia.
        * split; [discriminate|].
          intros (h' & m' & hs' & ms' & [= <- <-] & _ & Hm & _). congruence.
      + split; [discriminate|].
        intros (h' & m' & hs' & ms' & [= <- <-] & Hh & _). congruence.
    - split; [discriminate|]. intros (h & m & ? & ? & [=] & _). }
  split; [exact Hwf|].
  destruct (time_to_minutes_cases py_int time_str)
    as [(h & m & Hok & E)|[Hno E]]; rewrite E.
  - assert (Ht : CSVImporter._validate_time_format py_int time_str = true)
      by (apply Hwf; eauto).
    rewrite Ht. split; split; eauto; discriminate.
  - assert (Hf : CSVImporter._validate_time_format py_int time_str = false).
    { apply not_true_is_false. intros Ev.
      apply Hwf in Ev as (h & m & Hok). destruct (Hno h m Hok). }
    rewrite Hf. split; split; try discriminate; try reflexivity.
    intros [minutes [=]].
Qed.

End TimeFormat.

Section CsvRows.

Variable py_int : string -> option Z.
Variable py_strip : string -> string.
Variable py_str_int : Z -> string.
Variable py_str_exception : row_exception -> string.

Lemma process_row_as_is (row_num : Z) (row : CsvRow)
    (disciplines_map : list DisciplineCreate) (errors : list string) :
  exists message,
    CSVImporter.process_row py_int py_strip py_str_int py_str_exception
      CSVImporter.DataValidation_validate_day_of_week row_num row
      (disciplines_map, errors)
    = (disciplines_map, errors ++ [message]).
Proof.
  unfold CSVImporter.process_row, CSVImporter.DataValidation_validate_day_of_week.
  destruct (CSVImporter.strip_cell py_strip (col_codigo row)) as [code|];
    [|eauto].
  destruct (CSVImporter.strip_cell py_strip (col_nome row)) as [name|];
    [|eauto].
  destruct (CSVImporter.strip_cell py_strip (col_professor row)) as [professor|];
    [|eauto].
  destruct (CSVImporter.strip_cell py_strip (col_periodo row)) as [period_str|];
    [|eauto].
  destruct (CSVImporter.strip_cell py_strip (col_local row)); [|eauto].
  destruct (CSVImporter.strip_cell py_strip (col_dia row)) as [day_str|];
    [|eauto].
  destruct (CSVImporter.strip_cell py_strip (col_inicio row)); [|eauto].
  destruct (CSVImporter.strip_cell py_strip (col_fim row)); [|eauto].
  destruct (CSVImporter.strip_cell py_strip (col_prerequisitos row)); [|eauto].
  destruct (String.eqb code ""); [eauto|].
  destruct (String.eqb name ""); [eauto|].
  destruct (String.eqb professor ""); [eauto|].
  destruct (py_int period_str) as [period|]; [|eauto].
  destruct (negb (DataValidation.validate_period period)); [eauto|].
  destruct (py_int day_str); eauto.
Qed.

(** X23.  The loop of [parse_csv] over the rows never builds a discipline:
    whatever the rows are, the list of disciplines it returns is empty and
    every row adds exactly one error.  A row that passes every earlier check
    reaches the call of [DataValidation.validate_day_of_week], which the
    class does not define. *)
Theorem parse_rows_imports_nothing (rows : list CsvRow) :
  fst (CSVImporter.parse_rows py_int py_strip py_str_int py_str_exception rows)
    = [] /\
  length (snd (CSVImporter.parse_rows py_int py_strip py_str_int
                 py_str_exception rows))
    = length rows.
Proof.
  unfold CSVImporter.parse_rows.
  assert (H : forall row_num disciplines_map errors,
            let r := CSVImporter.process_rows py_int py_strip py_str_int
                       py_str_exception
                       CSVImporter.DataValidation_validate_day_of_week
                       row_num rows (disciplines_map, errors) in
            fst r = disciplines_map /\
            length (snd r) = (length errors + length rows)%nat).
  { induction rows as [|row rest IH]; intros row_num disciplines_map errors;
      cbn [CSVImporter.process_rows]; cbv zeta.
    - simpl. split; [reflexivity | lia].
    - destruct (process_row_as_is row_num row disciplines_map errors)
        as [message ->].
      destruct (IH (row_num + 1)%Z disciplines_map (errors ++ [message]))
        as [H1 H2].
      split; [exact H1|]. rewrite H2, length_app. simpl. lia. }
  destruct (H 2%Z [] []) as [H1 H2]. split; [exact H1 | exact H2].
Qed.

(** With a validator of the day in place, the same loop groups the rows of
    a discipline. *)
Example process_rows_with_validator :
  fst (CSVImporter.process_rows int_of_digits SampleData.same_text
         (fun _ => "n"%string) (fun _ => "e"%string)
         (Some (fun day => (1 <=? day)%Z && (day <=? 5)%Z)) 2
         [ mkCsvRow (Some "14117") (Some "IP1") (Some "PM") (Some "1")
             (Some "Sala 1") (Some "1") (Some "14:00") (Some "16:00")
             (Some "");
           mkCsvRow (Some "14117") (Some "IP1") (Some "PM") (Some "1")
             (Some "Sala 2") (Some "4") (Some "16:00") (Some "18:00")
             (Some "") ]%string ([], []))
  = [ mkDisciplineCreate "14117" "IP1" "PM" 1 60 []
        [ mkScheduleItem 1 "14:00" "16:00" "Sala 1";
          mkScheduleItem 4 "16:00" "18:00" "Sala 2" ] ].
Proof. vm_compute. reflexivity. Qed.

End CsvRows.

Section WeeklySchedule.

Import ScheduleRoute.

Implicit Types (week : gmap Z (list ScheduleEntry)).

Lemma empty_week_lookup (d : Z) :
  empty_week !! d = if decide (1 <= d <= 5)%Z then Some [] else None.
Proof.
  unfold empty_week. simpl.
  destruct (decide (1 <= d <= 5)%Z) as [Hd|Hd].
  - assert (d = 1 \/ d = 2 \/ d = 3 \/ d = 4 \/ d = 5)%Z
      as [->|[->|[->|[->| ->]]]] by lia; reflexivity.
  - rewrite !lookup_insert_ne by lia. apply lookup_empty.
Qed.

Lemma add_blocks_fill (discipline : Discipline) (items : list ScheduleItem) week :
  add_blocks discipline items week
  = fill (List.map (fun item => (day item, entry_of discipline item)) items) week.
Proof.
  revert week. induction items as [|item items IH]; intros week; simpl;
    [reflexivity|].
  destruct (append_entry week (day item) (entry_of discipline item));
    [reflexivity | apply IH].
Qed.

Lemma fill_app (l1 l2 : list (Z * ScheduleEntry)) week :
  fill (l1 ++ l2) week
  = match fill l1 week with
    | inl e => inl e
    | inr week' => fill l2 week'
    end.
Proof.
  revert week. induction l1 as [|[d e] l1 IH]; intros week; simpl;
    [reflexivity|].
  destruct (append_entry week d e); [reflexivity | apply IH].
Qed.

Lemma add_disciplines_fill (enrolled : list Discipline) week :
  add_disciplines enrolled week = fill (all_entries enrolled) week.
Proof.
  revert week. induction enrolled as [|disc enrolled IH]; intros week;
    [reflexivity|].
  unfold all_entries. simpl. rewrite fill_app, <- add_blocks_fill.
  destruct (add_blocks disc (schedules disc) week); [reflexivity|].
  apply IH.
Qed.

Lemma entries_of_day_cons (d d' : Z) (e : ScheduleEntry)
    (entries : list (Z * ScheduleEntry)) :
  entries_of_day d ((d', e) :: entries)
  = if decide (d' = d) then e :: entries_of_day d entries
    else entries_of_day d entries.
Proof.
  unfold entries_of_day. simpl.
  destruct (Z.eqb_spec d' d); destruct (decide (d' = d)); try contradiction;
    reflexivity.
Qed.

Lemma fill_in_range (entries : list (Z * ScheduleEntry)) week :
  (forall d, (1 <= d <= 5)%Z -> is_Some (week !! d)) ->
  Forall (fun e => 1 <= fst e <= 5)%Z entries ->
  exists week',
    fill entries week = inr week' /\
    forall d, week' !! d
              = (fun l => l ++ entries_of_day d entries) <$> week !! d.
Proof.
  intros Hdom Hall. revert week Hdom.
  induction Hall as [|[d0 e] entries Hd _ IH]; intros week Hdom.
  - exists week. split; [reflexivity|]. intros d.
    destruct (week !! d); simpl; [rewrite app_nil_r|]; reflexivity.
  - simpl in Hd. simpl. unfold append_entry.
    destruct (Hdom d0 Hd) as [l0 Hl0]. rewrite Hl0.
    destruct (IH (<[d0 := l0 ++ [e]]> week)) as (week' & Hfill & Hlook).
    { intros d Hr. apply lookup_insert_is_Some.
      destruct (decide (d0 = d)); [left | right]; auto. }
    exists week'. split; [exact Hfill|]. intros d. rewrite Hlook.
    rewrite entries_of_day_cons.
    destruct (decide (d0 = d)) as [->|Hne].
    + rewrite lookup_insert_eq, Hl0. simpl. rewrite <- app_assoc. reflexivity.
    + rewrite lookup_insert_ne by exact Hne. reflexivity.
Qed.

Lemma fill_key_error (before after : list (Z * ScheduleEntry))
    (d : Z) (e : ScheduleEntry) week :
  (forall d', is_Some (week !! d') <-> (1 <= d' <= 5)%Z) ->
  Forall (fun x => 1 <= fst x <= 5)%Z before ->
  ~ (1 <= d <= 5)%Z ->
  fill (before ++ (d, e) :: after) week = inl (KeyError d).
Proof.
  intros Hdom Hbefore Hout. rewrite fill_app.
  destruct (fill_in_range before week) as (week' & -> & Hlook);
    [intros d' Hd'; apply Hdom, Hd' | exact Hbefore |].
  simpl. unfold append_entry. rewrite Hlook.
  destruct (week !! d) as [l|] eqn:El; [|reflexivity].
  exfalso. apply Hout, Hdom. rewrite El. eauto.
Qed.

Lemma insert_by_start_perm (x : ScheduleEntry) (l : list ScheduleEntry) :
  Permutation (insert_by_start x l) (x :: l).
Proof.
  induction l as [|y l IH]; simpl; [reflexivity|].
  destruct (String.ltb (entry_start y) (entry_start x)); [|reflexivity].
  rewrite IH. apply perm_swap.
Qed.

Lemma sort_by_start_perm (l : list ScheduleEntry) :
  Permutation (sort_by_start l) l.
Proof.
  induction l as [|x l IH]; simpl; [reflexivity|].
  rewrite insert_by_start_perm, IH. reflexivity.
Qed.

Lemma not_ltb_leb (s1 s2 : string) :
  String.ltb s1 s2 = false -> String.leb s2 s1 = true.
Proof.
  unfold String.ltb, String.leb. rewrite (String.compare_antisym s2 s1).
  destruct (String.compare s1 s2); simpl; congruence.
Qed.

Lemma ltb_leb (s1 s2 : string) :
  String.ltb s1 s2 = true -> String.leb s1 s2 = true.
Proof.
  unfold String.ltb, String.leb.
  destruct (String.compare s1 s2); simpl; congruence.
Qed.

Lemma insert_by_start_sorted (x : ScheduleEntry) (l : list ScheduleEntry) :
  sorted_by_start l -> sorted_by_start (insert_by_start x l).
Proof.
  induction l as [|y l IH]; simpl; [auto|].
  intros [Hy Hl].
  destruct (String.ltb (entry_start y) (entry_start x)) eqn:E.
  - specialize (IH Hl). split; [|exact IH].
    destruct l as [|z l]; simpl in *.
    + apply ltb_leb, E.
    + destruct (String.ltb (entry_start z) (entry_start x));
        [exact Hy | apply ltb_leb, E].
  - split; [apply not_ltb_leb, E|]. split; assumption.
Qed.

Lemma sort_by_start_sorted (l : list ScheduleEntry) :
  sorted_by_start (sort_by_start l).
Proof.
  induction l as [|x l IH]; simpl; [exact I|].
  apply insert_by_start_sorted, IH.
Qed.

(** X24.  The schedule route raises 404 for an unknown semester.  For a
    known one, when every block of the enrolled disciplines is on a day from
    1 to 5, it returns a week with exactly the days 1 to 5, where each day
    lists the blocks of that day, each once, in the order of their start
    text compared as strings.  The first block on another day makes the
    route raise [KeyError] for that day. *)
Theorem weekly_schedule (db : Database) (s : string) :
  (get_semester db s = None ->
     get_schedule db s
     = inl (ScheduleHTTPException 404 "Semestre não encontrado")) /\
  (is_Some (get_semester db s) ->
   let entries := all_entries (get_enrolled_disciplines db s) in
   (Forall (fun e => 1 <= fst e <= 5)%Z entries ->
      exists week,
        get_schedule db s = inr week /\
        (forall d, (1 <= d <= 5)%Z ->
           exists l, week !! d = Some l /\ sorted_by_start l /\
                     Permutation l (entries_of_day d entries)) /\
        (forall d, ~ (1 <= d <= 5)%Z -> week !! d = None)) /\
   (forall before d e after,
      entries = before ++ (d, e) :: after ->
      Forall (fun x => 1 <= fst x <= 5)%Z before ->
      ~ (1 <= d <= 5)%Z ->
      get_schedule db s = inl (KeyError d))).
Proof.
  unfold get_schedule. split.
  - intros ->. reflexivity.
  - intros [semester Hs]. rewrite Hs. cbv zeta. rewrite add_disciplines_fill.
    set (entries := all_entries (get_enrolled_disciplines db s)).
    split.
    + intros Hall.
      destruct (fill_in_range entries empty_week) as (week & -> & Hlook).
      { intros d Hd. rewrite empty_week_lookup.
        destruct (decide (1 <= d <= 5)%Z); [eauto | contradiction]. }
      { exact Hall. }
      exists (sort_by_start <$> week). split; [reflexivity|]. split.
      * intros d Hd. rewrite lookup_fmap, Hlook, empty_week_lookup.
        destruct (decide (1 <= d <= 5)%Z); [|contradiction]. simpl.
        eexists. split; [reflexivity|].
        split; [apply sort_by_start_sorted | apply sort_by_start_perm].
      * intros d Hd. rewrite lookup_fmap, Hlook, empty_week_lookup.
        destruct (decide (1 <= d <= 5)%Z); [contradiction | reflexivity].
    + intros before d e after -> Hbefore Hout.
      rewrite (fill_key_error before after d e empty_week); [reflexivity| | |].
      * intros d'. rewrite empty_week_lookup.
        destruct (decide (1 <= d' <= 5)%Z); split; intros H;
          try assumption; try contradiction; eauto.
        destruct H as [? [=]].
      * exact Hbefore.
      * exact Hout.
Qed.

Lemma weekly_schedule_witness :
  exists week,
    get_schedule (DefaultData.with_enrolled ["14117"; "06507"]) "2024.1"
    = inr week /\
    (forall d, (1 <= d <= 5)%Z ->
       exists l,
         week !! d = Some l /\ sorted_by_start l /\
         Permutation l
           (entries_of_day d
              (all_entries
                 (get_enrolled_disciplines
                    (DefaultData.with_enrolled ["14117"; "06507"]) "2024.1")))) /\
    (forall d, ~ (1 <= d <= 5)%Z -> week !! d = None).
Proof.
  apply (proj1 (proj2 (weekly_schedule
                         (DefaultData.with_enrolled ["14117"; "06507"]) "2024.1")
                 ltac:(eexists; vm_compute; reflexivity))).
  apply (bool_decide_unpack _). vm_compute. exact I.
Defined.

(** The order is the order of strings: a start without a leading zero comes
    after a later one with two digits. *)
Example sort_by_start_as_text :
  List.map entry_start
    (sort_by_start [ mkScheduleEntry "A" "A" "9:00" "11:00" "";
                     mkScheduleEntry "B" "B" "14:00" "16:00" "" ])
  = ["14:00"; "9:00"]%string.
Proof. reflexivity. Qed.

End WeeklySchedule.
